(** * RW-Payment-Utils: the Flutterwave card-charge service

    A shallow embedding of [src/flutterwaveApiUtils.ts] (class
    [FlutterwaveApiService]) and of the type declarations of [flutterwave.ts],
    with the properties of the card-charge pipeline stated over it.

    Conventions of the embedding.
    - A JavaScript string is a [string]: a sequence of 8-bit characters, read
      as the code units 0..255.  Code units above 255 are outside the model.
    - A JavaScript number is an integer [Z], meant within the safe integers
      (at most 2^53 - 1 in absolute value), where a number is that integer
      and prints as its decimal numeral. Fractions and larger numbers, which
      JavaScript rounds and prints with an exponent from 1e21, are outside
      the model.
    - node-forge's binary buffers are "binary strings" (one character per
      byte) in the library itself; they are [list ascii] here.
    - The network (axios) is an oracle that answers each request; every
      request made is appended to the request log of the world. *)

From Stdlib Require Import String Ascii List ZArith NArith Bool Lia.
From Stdlib Require Import DecimalString.
Import ListNotations.

Local Open Scope list_scope.
Local Open Scope string_scope.

(** ** JavaScript values *)

Module JS.

Set Warnings "-register-all".

(** Values as [JSON.parse] and object literals produce them, plus
    [undefined]. Objects keep their properties in insertion order. *)
Inductive value : Type :=
| Undefined
| Null
| Bool (b : bool)
| Num (n : Z)
| Str (s : string)
| Arr (items : list value)
| Obj (props : list (string * value)).

(** [Number.isSafeInteger]: the integers a JavaScript number holds
    exactly. *)
Definition safe_integer (n : Z) : Prop :=
  (Z.abs n <= 9007199254740991)%Z.

(** [Number.prototype.toString] on a safe integer: its decimal numeral.
    Beyond the safe integers the function below still writes all the digits,
    which JavaScript does not (it writes 1e+21 for 10^21); a statement about
    the digits of a number assumes [safe_integer]. *)
Definition Number_toString (n : Z) : string :=
  NilZero.string_of_int (Z.to_int n).

(** [ToBoolean]. *)
Definition truthy (v : value) : bool :=
  match v with
  | Undefined | Null => false
  | Bool b => b
  | Num n => negb (n =? 0)%Z
  | Str s => negb (s =? "")
  | Arr _ | Obj _ => true
  end.

(** [a || b]. *)
Definition or_else (a b : value) : value := if truthy a then a else b.

Fixpoint join (sep : string) (l : list string) : string :=
  match l with
  | [] => ""
  | [s] => s
  | s :: rest => s ++ sep ++ join sep rest
  end.

(** [ToString]: what template literals and the [Error] constructor apply.
    Arrays join their elements with a comma, [null] and [undefined] elements
    giving the empty string; plain objects give "[object Object]". *)
Fixpoint ToString (v : value) : string :=
  match v with
  | Undefined => "undefined"
  | Null => "null"
  | Bool true => "true"
  | Bool false => "false"
  | Num n => Number_toString n
  | Str s => s
  | Arr items =>
      join ","
        ((fix elems (l : list value) : list string :=
            match l with
            | [] => []
            | Undefined :: r | Null :: r => "" :: elems r
            | x :: r => ToString x :: elems r
            end) items)
  | Obj _ => "[object Object]"
  end.

(** [v === s] for a string literal [s]. *)
Definition strict_eq_str (v : value) (s : string) : bool :=
  match v with
  | Str t => t =? s
  | _ => false
  end.

(** Own-property lookup in a property list. *)
Fixpoint lookup (k : string) (props : list (string * value)) : option value :=
  match props with
  | [] => None
  | (k', v) :: rest => if k' =? k then Some v else lookup k rest
  end.

(** [o[k] = v] on a property list: an existing property keeps its place, a
    new one goes last. *)
Fixpoint set (k : string) (v : value) (props : list (string * value))
  : list (string * value) :=
  match props with
  | [] => [(k, v)]
  | (k', v') :: rest =>
      if k' =? k then (k, v) :: rest else (k', v') :: set k v rest
  end.

(** [v.k] for the property names the service reads ([status], [message],
    [data], [meta], [authorization], [mode], [flw_ref]): none of them is a
    property of a string, number, boolean or array, so those give
    [undefined]. Reading a property of [null] or [undefined] is a TypeError:
    [None]. *)
Definition get (v : value) (k : string) : option value :=
  match v with
  | Undefined | Null => None
  | Obj props =>
      match lookup k props with
      | Some x => Some x
      | None => Some Undefined
      end
  | _ => Some Undefined
  end.

(** [v?.k]. *)
Definition get_opt (v : value) (k : string) : value :=
  match get v k with
  | Some x => x
  | None => Undefined
  end.

(** [{...v}] for the one value the service spreads: a response body that
    has passed the test [data?.status === 'pending'], hence an object; its
    own properties in order. ([null], [undefined], numbers and booleans
    spread to nothing.) *)
Definition spread (v : value) : list (string * value) :=
  match v with
  | Obj props => props
  | _ => []
  end.

(** *** Exceptions

    What a [catch (error)] clause of the service can observe of a thrown
    value: its [message], and [error.response?.data] ([Undefined] unless the
    error is an axios error that carries a response). *)
Inductive error_kind : Type :=
| TypeError
| PlainError
| AxiosError
| ApiErrorKind (statusCode : Z).

Record exn : Type := mk_exn {
  kind : error_kind;
  message : string;
  response_data : value
}.

(** The [message] an [Error] gets from its constructor argument: the empty
    string for [undefined], [ToString] of the argument otherwise. *)
Definition Error_message (v : value) : string :=
  match v with
  | Undefined => ""
  | _ => ToString v
  end.

Inductive result (A : Type) : Type :=
| Ok (a : A)
| Throw (e : exn).
Arguments Ok {A} a.
Arguments Throw {A} e.

End JS.

(** ** [JSON.stringify] *)

Module JSON.

Definition hex_digit (n : N) : ascii :=
  match n with
  | 10 => "a" | 11 => "b" | 12 => "c" | 13 => "d" | 14 => "e" | 15 => "f"
  | _ => ascii_of_N (48 + n)
  end%N%char.

(** The double quote character. *)
Definition dquote : ascii := "034"%char.

(** One character of a quoted string: the quote, the backslash and the
    control characters are escaped, every other character stands for itself. *)
Definition escape_char (c : ascii) : string :=
  let n := N_of_ascii c in
  match n with
  | 8 => "\b"
  | 9 => "\t"
  | 10 => "\n"
  | 12 => "\f"
  | 13 => "\r"
  | 34 => String "\" (String dquote "")
  | 92 => "\\"
  | _ =>
      if (n <? 32)%N
      then "\u00" ++ String (hex_digit (n / 16))
                       (String (hex_digit (n mod 16)) "")
      else String c ""
  end%N.

Fixpoint escape (s : string) : string :=
  match s with
  | EmptyString => ""
  | String c rest => escape_char c ++ escape rest
  end.

Definition quote (s : string) : string :=
  String dquote (escape s ++ String dquote "").

(** [JSON.stringify v]: [None] is JavaScript's [undefined] result. A property
    whose value is [undefined] is left out of an object; an [undefined] array
    element is written [null]. *)
Fixpoint stringify (v : JS.value) : option string :=
  match v with
  | JS.Undefined => None
  | JS.Null => Some "null"
  | JS.Bool true => Some "true"
  | JS.Bool false => Some "false"
  | JS.Num n => Some (JS.Number_toString n)
  | JS.Str s => Some (quote s)
  | JS.Arr items =>
      Some ("[" ++ JS.join ","
              ((fix elems (l : list JS.value) : list string :=
                  match l with
                  | [] => []
                  | x :: r =>
                      match stringify x with
                      | Some s => s
                      | None => "null"
                      end :: elems r
                  end) items) ++ "]")
  | JS.Obj props =>
      Some ("{" ++ JS.join ","
              ((fix members (l : list (string * JS.value)) : list string :=
                  match l with
                  | [] => []
                  | (k, x) :: r =>
                      match stringify x with
                      | Some s => (quote k ++ ":" ++ s) :: members r
                      | None => members r
                      end
                  end) props) ++ "}")
  end.

End JSON.


(** ** node-forge: byte buffers, the 3DES-ECB cipher object, base64

    The library is not part of the repository. Its block function (one 3DES
    encryption of one 8-byte block under a 24-byte key) is a parameter; the
    cipher object around it (buffering, ECB, padding) and base64 follow the
    library's documented behaviour. *)

Module Forge.

(** The 3DES block function and its inverse: a 24-byte key and an 8-byte
    block give an 8-byte block. *)
Class TripleDES : Type := {
  encrypt_block : list ascii -> list ascii -> list ascii;
  decrypt_block : list ascii -> list ascii -> list ascii
}.

(** What is assumed of the block function where decryption matters: blocks
    stay blocks, and decrypting under the same key undoes encrypting. *)
Definition lawful (des : TripleDES) : Prop :=
  (forall k b,
      length k = 24 -> length b = 8 -> length (encrypt_block k b) = 8)
  /\ (forall k b,
         length k = 24 -> length b = 8 ->
         decrypt_block k (encrypt_block k b) = b).

(** [forge.util.createBuffer(input)] with no encoding argument: the encoding
    defaults to 'raw', every character of the string is one byte of the
    buffer; no UTF-8 encoding is applied. [undefined] gives the empty
    buffer. *)
Definition createBuffer (input : option string) : list ascii :=
  match input with
  | Some s => list_ascii_of_string s
  | None => []
  end.

(** [forge.util.encodeUtf8] on code units below 256: what
    [createBuffer(input, 'utf8')] would have stored. *)
Definition encodeUtf8_char (c : ascii) : list ascii :=
  let n := N_of_ascii c in
  if (n <? 128)%N then [c]
  else [ascii_of_N (192 + n / 64); ascii_of_N (128 + n mod 64)].

Definition encodeUtf8 (s : string) : list ascii :=
  flat_map encodeUtf8_char (list_ascii_of_string s).

Section Cipher.
Context {des : TripleDES}.

(** The cipher object: its key, the input not yet consumed and the output
    produced so far. *)
Record BlockCipher : Type := mk_cipher {
  key : list ascii;
  _input : list ascii;
  output : list ascii
}.

(** [forge.cipher.createCipher('3DES-ECB', key)]: a key that is not 24 bytes
    long is refused. *)
Definition createCipher (k : list ascii) : JS.result BlockCipher :=
  if (length k =? 24)%nat
  then JS.Ok (mk_cipher k [] [])
  else JS.Throw (JS.mk_exn JS.PlainError
         ("Invalid Triple-DES key size: "
            ++ JS.Number_toString (Z.of_nat (length k * 8)))
         JS.Undefined).

(** [cipher.start({iv})]: fresh buffers. The ECB mode has no use for the
    initialization vector. *)
Definition start (iv : string) (c : BlockCipher) : BlockCipher :=
  mk_cipher (key c) [] [].

(** The mode's loop: every complete 8-byte block at the front of the input is
    encrypted on its own and written to the output; what is left (fewer than
    8 bytes) stays in the input. *)
Fixpoint consume (k : list ascii) (input : list ascii)
  : list ascii * list ascii :=
  match input with
  | b0 :: b1 :: b2 :: b3 :: b4 :: b5 :: b6 :: b7 :: rest =>
      let '(out, remaining) := consume k rest in
      ((encrypt_block k [b0; b1; b2; b3; b4; b5; b6; b7] ++ out)%list,
       remaining)
  | _ => ([], input)
  end.

(** [cipher.update(buffer)]. *)
Definition update (data : list ascii) (c : BlockCipher) : BlockCipher :=
  let '(out, remaining) := consume (key c) (_input c ++ data)%list in
  mk_cipher (key c) remaining (output c ++ out)%list.

(** The ECB mode's [pad]: as many bytes as are missing to the block size,
    each holding that count; a whole block when nothing is missing. *)
Definition pad (input : list ascii) : list ascii :=
  let padding := if (length input =? 8)%nat then 8 else 8 - length input in
  (input ++ repeat (ascii_of_nat padding) padding)%list.

(** [cipher.finish()]: pads what is left of the input and consumes it. *)
Definition finish (c : BlockCipher) : BlockCipher :=
  let '(out, remaining) := consume (key c) (pad (_input c)) in
  mk_cipher (key c) remaining (output c ++ out)%list.

(** [cipher.output.getBytes()]. *)
Definition getBytes (c : BlockCipher) : list ascii := output c.

(** *** ECB encryption as the specification words it

    The plaintext is padded to a multiple of the block size (PKCS#7), cut
    into 8-byte blocks, and every block is encrypted independently. *)
Definition pkcs7_pad (bs : list ascii) : list ascii :=
  let n := 8 - length bs mod 8 in
  (bs ++ repeat (ascii_of_nat n) n)%list.

Fixpoint blocks (fuel : nat) (bs : list ascii) : list (list ascii) :=
  match fuel, bs with
  | 0, _ | _, [] => []
  | S fuel', _ => firstn 8 bs :: blocks fuel' (skipn 8 bs)
  end.

Definition ecb_encrypt (k bs : list ascii) : list ascii :=
  let p := pkcs7_pad bs in
  concat (map (encrypt_block k) (blocks (length p) p)).

(** The inverse the round-trip property speaks of: every block decrypted
    independently, then the padding removed (the last byte tells how many
    bytes to drop). *)
Definition pkcs7_unpad (bs : list ascii) : list ascii :=
  firstn (length bs - nat_of_ascii (last bs zero)) bs.

Definition ecb_decrypt (k cs : list ascii) : list ascii :=
  pkcs7_unpad (concat (map (decrypt_block k) (blocks (length cs) cs))).

End Cipher.

(** *** base64 *)

Definition alphabet : list ascii :=
  list_ascii_of_string
    "ABCDEFGHIJKLMNOPQRSTUVWXYZabcdefghijklmnopqrstuvwxyz0123456789+/".

Definition b64_char (n : N) : ascii := nth (N.to_nat n) alphabet "="%char.

Fixpoint index_of (c : ascii) (l : list ascii) (i : N) : option N :=
  match l with
  | [] => None
  | x :: r => if Ascii.eqb x c then Some i else index_of c r (N.succ i)
  end.

Definition b64_index (c : ascii) : option N := index_of c alphabet 0%N.

(** [forge.util.encode64]: three bytes give four characters; one or two
    trailing bytes are completed with '='. *)
Fixpoint encode64_bytes (bs : list ascii) : list ascii :=
  match bs with
  | a :: b :: c :: rest =>
      let x := N_of_ascii a in
      let y := N_of_ascii b in
      let z := N_of_ascii c in
      b64_char (x / 4)
        :: b64_char ((x mod 4) * 16 + y / 16)
        :: b64_char ((y mod 16) * 4 + z / 64)
        :: b64_char (z mod 64)
        :: encode64_bytes rest
  | [a; b] =>
      let x := N_of_ascii a in
      let y := N_of_ascii b in
      [b64_char (x / 4); b64_char ((x mod 4) * 16 + y / 16);
       b64_char ((y mod 16) * 4); "="%char]
  | [a] =>
      let x := N_of_ascii a in
      [b64_char (x / 4); b64_char ((x mod 4) * 16); "="%char; "="%char]
  | [] => []
  end%N.

Definition encode64 (bs : list ascii) : string :=
  string_of_list_ascii (encode64_bytes bs).

(** [forge.util.decode64]. *)
Fixpoint decode64_chars (cs : list ascii) : list ascii :=
  match cs with
  | c1 :: c2 :: c3 :: c4 :: rest =>
      match b64_index c1, b64_index c2, b64_index c3, b64_index c4 with
      | Some s1, Some s2, Some s3, Some s4 =>
          ascii_of_N (s1 * 4 + s2 / 16)
            :: ascii_of_N ((s2 mod 16) * 16 + s3 / 4)
            :: ascii_of_N ((s3 mod 4) * 64 + s4)
            :: decode64_chars rest
      | Some s1, Some s2, Some s3, None =>
          [ascii_of_N (s1 * 4 + s2 / 16);
           ascii_of_N ((s2 mod 16) * 16 + s3 / 4)]
      | Some s1, Some s2, None, _ => [ascii_of_N (s1 * 4 + s2 / 16)]
      | _, _, _, _ => []
      end
  | _ => []
  end%N.

Definition decode64 (s : string) : list ascii :=
  decode64_chars (list_ascii_of_string s).

(** Every block of the list has the block size. *)
Definition whole_blocks (bl : list (list ascii)) : Prop :=
  Forall (fun b => length b = 8) bl.

(** A text of 7-bit characters. *)
Definition is_ascii (s : string) : Prop :=
  Forall (fun c => (N_of_ascii c < 128)%N) (list_ascii_of_string s).

End Forge.

(** ** The declarations of [flutterwave.ts] *)

Module AuthorizationMode.
Inductive t : Type := PIN | OTP | REDIRECT | NONE | AVS_NOAUTH.

Definition value (m : t) : string :=
  match m with
  | PIN => "pin"
  | OTP => "otp"
  | REDIRECT => "redirect"
  | NONE => "none"
  | AVS_NOAUTH => "avs_noauth"
  end.

Definition eqb (a b : t) : bool :=
  match a, b with
  | PIN, PIN | OTP, OTP | REDIRECT, REDIRECT | NONE, NONE
  | AVS_NOAUTH, AVS_NOAUTH => true
  | _, _ => false
  end.
End AuthorizationMode.

Module PaymentStatus.
Inductive t : Type :=
  PENDING | SUCCESS | FAILED | REQUIRES_AUTH | REQUIRES_VALIDATION.

Definition value (s : t) : string :=
  match s with
  | PENDING => "pending"
  | SUCCESS => "success"
  | FAILED => "failed"
  | REQUIRES_AUTH => "requires_auth"
  | REQUIRES_VALIDATION => "requires_validation"
  end.
End PaymentStatus.

Module PaymentAction.
Inductive t : Type :=
  VALIDATE_OTP | VALIDATE_PIN | REDIRECT | COMPLETE | FAILED | VALIDATE_AVS
| VOID.

Definition value (a : t) : string :=
  match a with
  | VALIDATE_OTP => "validate_otp"
  | VALIDATE_PIN => "validate_pin"
  | REDIRECT => "redirect"
  | COMPLETE => "complete"
  | FAILED => "failed"
  | VALIDATE_AVS => "validate_avs"
  | VOID => "void"
  end.
End PaymentAction.

(** The [authorization] member of [CardPaymentData]; [None] is an absent
    optional field. *)
Record Authorization : Type := {
  mode : AuthorizationMode.t;
  pin : option string;
  otp : option string;
  city : option string;
  address : option string;
  state : option string;
  country : option string;
  zipcode : option Z
}.

Record CardPaymentData : Type := {
  card_number : string;
  cvv : string;
  expiry_month : string;
  expiry_year : string;
  amount : Z;
  email : string;
  tx_ref : string;
  currency : option string;
  fullname : option string;
  preauthorize : option bool;
  authorization : option Authorization
}.

Module TokenizedChargeData.
Record t : Type := {
  token : string;
  email : string;
  amount : Z;
  tx_ref : string;
  currency : option string;
  narration : string
}.
End TokenizedChargeData.

Record FlutterwaveConfig : Type := {
  publicKey : string;
  secretKey : string;
  encryptionKey : string;
  redirectUrl : string;
  isTestMode : bool
}.

(** An optional field read as a JavaScript value. *)
Definition opt_str (o : option string) : JS.value :=
  match o with Some s => JS.Str s | None => JS.Undefined end.

Definition opt_num (o : option Z) : JS.value :=
  match o with Some n => JS.Num n | None => JS.Undefined end.

Definition opt_bool (o : option bool) : JS.value :=
  match o with Some b => JS.Bool b | None => JS.Undefined end.

(** ** The world of the service: environment, network, log *)

Record process_env : Type := {
  FLUTTERWAVE_PUBLIC_KEY : option string;
  FLUTTERWAVE_SECRET_KEY : option string;
  FLUTTERWAVE_ENCRYPTION_KEY : option string;
  FLUTTERWAVE_REDIRECT_URL : option string;
  FLUTTERWAVE_TEST_MODE : option string
}.

Inductive http_method : Type := GET | POST.

(** One call of [axios.get] or [axios.post]; a GET has no body. *)
Record request : Type := {
  method : http_method;
  url : string;
  body : JS.value;
  request_headers : list (string * string)
}.

(** The promise axios returns either resolves to a response, of which the
    service reads [data], or rejects with an error that has a [message] and,
    when the gateway answered, [response.data]. *)
Inductive axios_outcome : Type :=
| Resolves (data : JS.value)
| Rejects (message : string) (response_data : JS.value).

Inductive log_level : Type := Info | Error.

Record log_entry : Type := {
  level : log_level;
  text : string;
  detail : JS.value
}.

Record world : Type := {
  env : process_env;
  requests : list request;
  logs : list log_entry
}.

(** Modelled from the spec: the class [ApiError] of [./ApiError], which is
    not among the sources; the one reported error type, carrying a
    classification (an HTTP status code) and a human-readable message. *)
Definition ApiError (statusCode : Z) (msg : JS.value) : JS.exn :=
  JS.mk_exn (JS.ApiErrorKind statusCode) (JS.Error_message msg) JS.Undefined.

Module httpStatus.
Definition BAD_REQUEST : Z := 400.
Definition INTERNAL_SERVER_ERROR : Z := 500.
End httpStatus.

(** *** Computations with effects: a state and exception monad over the
    world. *)
Definition Eff (A : Type) : Type := world -> JS.result A * world.

Definition ret {A} (a : A) : Eff A := fun w => (JS.Ok a, w).

Definition throw {A} (e : JS.exn) : Eff A := fun w => (JS.Throw e, w).

Definition bind {A B} (m : Eff A) (k : A -> Eff B) : Eff B :=
  fun w =>
    match m w with
    | (JS.Ok a, w') => k a w'
    | (JS.Throw e, w') => (JS.Throw e, w')
    end.

Definition try_catch {A} (m : Eff A) (handler : JS.exn -> Eff A) : Eff A :=
  fun w =>
    match m w with
    | (JS.Ok a, w') => (JS.Ok a, w')
    | (JS.Throw e, w') => handler e w'
    end.

Definition lift {A} (r : JS.result A) : Eff A := fun w => (r, w).

Notation "x <- m ;; k" := (bind m (fun x => k))
  (at level 61, m at next level, right associativity).
Notation "m ;;; k" := (bind m (fun _ => k))
  (at level 61, right associativity).

Definition process_env_now : Eff process_env := fun w => (JS.Ok (env w), w).

(** Modelled from the spec: the logger of [../config/logger], which is not
    among the sources; [logger.info] and [logger.error] record a line, with
    the upstream context when there is one. *)
Definition logger (l : log_level) (t : string) (d : JS.value) : Eff unit :=
  fun w =>
    (JS.Ok tt,
     {| env := env w; requests := requests w;
        logs := (logs w ++ [{| level := l; text := t; detail := d |}])%list |}).

(** [v.k]; a TypeError when [v] is [null] or [undefined]. *)
Definition prop (v : JS.value) (k : string) : Eff JS.value :=
  match JS.get v k with
  | Some x => ret x
  | None =>
      throw (JS.mk_exn JS.TypeError
               ("Cannot read properties of " ++ JS.ToString v
                  ++ " (reading '" ++ k ++ "')")
               JS.Undefined)
  end.

(** [String.prototype.toLocaleLowerCase] on the characters A-Z. *)
Definition lower_char (c : ascii) : ascii :=
  let n := N_of_ascii c in
  if ((65 <=? n) && (n <=? 90))%N then ascii_of_N (n + 32) else c.

Fixpoint toLocaleLowerCase (s : string) : string :=
  match s with
  | EmptyString => EmptyString
  | String c r => String (lower_char c) (toLocaleLowerCase r)
  end.

(** ** [class FlutterwaveApiService] *)

Module FlutterwaveApiService.

Record t : Type := {
  config : FlutterwaveConfig;
  baseUrl : string;
  headers : list (string * string)
}.

(** [!v] for an environment variable: unset or empty. *)
Definition missing (v : option string) : bool :=
  negb (JS.truthy (opt_str v)).

(** The string an environment variable holds once [missing] has ruled out
    that it is unset. *)
Definition env_string (v : option string) : string :=
  match v with Some s => s | None => "" end.

Definition constructor (e : process_env) : JS.result t :=
  if missing (FLUTTERWAVE_PUBLIC_KEY e) || missing (FLUTTERWAVE_SECRET_KEY e)
     || missing (FLUTTERWAVE_ENCRYPTION_KEY e)
     || missing (FLUTTERWAVE_REDIRECT_URL e)
  then JS.Throw (ApiError httpStatus.INTERNAL_SERVER_ERROR
                   (JS.Str "Flutterwave configuration is incomplete"))
  else
    let config :=
      {| publicKey := env_string (FLUTTERWAVE_PUBLIC_KEY e);
         secretKey := env_string (FLUTTERWAVE_SECRET_KEY e);
         encryptionKey := env_string (FLUTTERWAVE_ENCRYPTION_KEY e);
         redirectUrl := env_string (FLUTTERWAVE_REDIRECT_URL e);
         isTestMode :=
           JS.strict_eq_str (opt_str (FLUTTERWAVE_TEST_MODE e)) "true" |} in
    JS.Ok {| config := config;
             baseUrl := "https://api.flutterwave.com/v3";
             headers :=
               [("Content-Type", "application/json");
                ("Authorization", "Bearer " ++ secretKey config)] |}.

Section Methods.
Context {des : Forge.TripleDES}.

(** The gateway behind axios: the outcome of a request, which may depend on
    the requests made before it. *)
Variable network : list request -> request -> axios_outcome.

(** [await axios.post(url, payload, {headers})] and
    [await axios.get(url, {headers})]: the request is made (and logged in the
    world), then the promise settles. *)
Definition axios (req : request) : Eff JS.value :=
  fun w =>
    let w' := {| env := env w; requests := (requests w ++ [req])%list;
                 logs := logs w |} in
    match network (requests w) req with
    | Resolves data => (JS.Ok data, w')
    | Rejects msg rd => (JS.Throw (JS.mk_exn JS.AxiosError msg rd), w')
    end.

Definition axios_post (u : string) (payload : JS.value)
    (h : list (string * string)) : Eff JS.value :=
  axios {| method := POST; url := u; body := payload; request_headers := h |}.

Definition axios_get (u : string) (h : list (string * string))
  : Eff JS.value :=
  axios {| method := GET; url := u; body := JS.Undefined;
           request_headers := h |}.

Definition encryptCardData (this : t) (payload : JS.value)
  : JS.result string :=
  let text := JSON.stringify payload in
  match Forge.createCipher
          (Forge.createBuffer (Some (encryptionKey (config this)))) with
  | JS.Throw e => JS.Throw e
  | JS.Ok cipher =>
      let cipher := Forge.start "" cipher in
      let cipher := Forge.update (Forge.createBuffer text) cipher in
      let cipher := Forge.finish cipher in
      let encrypted := Forge.getBytes cipher in
      JS.Ok (Forge.encode64 encrypted)
  end.

(** The [catch (error)] clause every method ends with: the failure is logged
    with the upstream context, then reported as an [ApiError]. *)
Definition report (label generic : string) (error : JS.exn) : Eff JS.value :=
  logger Error label
    (JS.or_else (JS.response_data error) (JS.Str (JS.message error))) ;;;
  throw (ApiError httpStatus.BAD_REQUEST
           (JS.or_else
              (JS.or_else (JS.get_opt (JS.response_data error) "message")
                 (JS.Str (JS.message error)))
              (JS.Str generic))).

(** The [authorization] object of the card payload. *)
Definition authorization_payload (a : Authorization) : JS.value :=
  let auth := [("mode", JS.Str (toLocaleLowerCase
                                  (AuthorizationMode.value (mode a))))] in
  let auth :=
    if AuthorizationMode.eqb (mode a) AuthorizationMode.PIN
       && JS.truthy (opt_str (pin a))
    then JS.set "pin" (opt_str (pin a)) auth else auth in
  let auth :=
    if AuthorizationMode.eqb (mode a) AuthorizationMode.OTP
       && JS.truthy (opt_str (otp a))
    then JS.set "otp" (opt_str (otp a)) auth else auth in
  let auth :=
    if JS.truthy (opt_str (city a))
    then JS.set "city" (opt_str (city a)) auth else auth in
  let auth :=
    if JS.truthy (opt_str (address a))
    then JS.set "address" (opt_str (address a)) auth else auth in
  let auth :=
    if JS.truthy (opt_str (state a))
    then JS.set "state" (opt_str (state a)) auth else auth in
  let auth :=
    if JS.truthy (opt_str (country a))
    then JS.set "country" (opt_str (country a)) auth else auth in
  let auth :=
    if JS.truthy (opt_num (zipcode a))
    then JS.set "zipcode" (opt_num (zipcode a)) auth else auth in
  JS.Obj auth.

(** The object [cardData] that [chargeCard] builds and encrypts. *)
Definition cardData (e : process_env) (data : CardPaymentData) : JS.value :=
  let fields :=
    [("card_number", JS.Str (card_number data));
     ("cvv", JS.Str (cvv data));
     ("expiry_month", JS.Str (expiry_month data));
     ("expiry_year", JS.Str (expiry_year data));
     ("email", JS.Str (email data));
     ("currency", JS.or_else (opt_str (currency data)) (JS.Str "RWF"));
     ("amount", JS.Str (JS.Number_toString (amount data)));
     ("tx_ref", JS.Str (tx_ref data));
     ("fullname", opt_str (fullname data));
     ("redirect_url", opt_str (FLUTTERWAVE_REDIRECT_URL e));
     ("payment_type", JS.Str "card");
     ("preauthorize", opt_bool (preauthorize data));
     ("device_fingerprint", JS.Str "device_fingerprint");
     ("client_ip", JS.Str "127.0.0.1")] in
  match authorization data with
  | Some a => JS.Obj (JS.set "authorization" (authorization_payload a) fields)
  | None => JS.Obj fields
  end.

(** The request body of [chargeCard]. *)
Definition envelope (encryptedData : string) (card : JS.value) : JS.value :=
  JS.Obj [("client", JS.Str encryptedData);
          ("client_ip", JS.get_opt card "client_ip");
          ("device_fingerprint", JS.get_opt card "device_fingerprint");
          ("alg", JS.Str "3DES-24")].

Definition chargeCard (this : t) (data : CardPaymentData) : Eff JS.value :=
  try_catch
    (e <- process_env_now ;;
     let cardData := cardData e data in
     encryptedData <- lift (encryptCardData this cardData) ;;
     let payload := envelope encryptedData cardData in
     response_data <-
       axios_post (baseUrl this ++ "/charges?type=card") payload
         (headers this) ;;
     status <- prop response_data "status" ;;
     if JS.strict_eq_str status "error"
     then msg <- prop response_data "message" ;;
          throw (ApiError httpStatus.BAD_REQUEST msg)
     else
       inner <- prop response_data "data" ;;
       if JS.truthy (opt_bool (preauthorize data))
          && JS.strict_eq_str (JS.get_opt inner "status") "pending"
       then
         meta <- prop response_data "meta" ;;
         let authMode := JS.get_opt (JS.get_opt meta "authorization") "mode" in
         if JS.truthy authMode
         then
           logger Info
             ("Preauthorization requires " ++ JS.ToString authMode
                ++ " validation") JS.Undefined ;;;
           flw_ref <- prop inner "flw_ref" ;;
           ret (JS.Obj
                  (JS.set "flw_ref" flw_ref
                     (JS.set "validation_mode" authMode
                        (JS.set "requires_validation" (JS.Bool true)
                           (JS.spread response_data)))))
         else ret response_data
       else ret response_data)
    (report "Flutterwave card charge failed:" "Card charge failed").

Definition chargeWithToken (this : t) (data : TokenizedChargeData.t)
  : Eff JS.value :=
  try_catch
    (let payload :=
       JS.Obj
         [("token", JS.Str (TokenizedChargeData.token data));
          ("currency",
           JS.or_else (opt_str (TokenizedChargeData.currency data))
             (JS.Str "RWF"));
          ("amount",
           JS.Str (JS.Number_toString (TokenizedChargeData.amount data)));
          ("email", JS.Str (TokenizedChargeData.email data));
          ("tx_ref", JS.Str (TokenizedChargeData.tx_ref data));
          ("redirect_url", JS.Str (redirectUrl (config this)))] in
     response_data <-
       axios_post (baseUrl this ++ "/tokenized-charges") payload
         (headers this) ;;
     status <- prop response_data "status" ;;
     if JS.strict_eq_str status "error"
     then msg <- prop response_data "message" ;;
          throw (ApiError httpStatus.BAD_REQUEST msg)
     else ret response_data)
    (report "Flutterwave tokenized charge failed:" "Tokenized charge failed").

Inductive charge_type : Type := card | account.

Definition charge_type_value (c : charge_type) : string :=
  match c with card => "card" | account => "account" end.

(** [type] defaults to 'card' when the argument is left out. *)
Definition validateCharge (this : t) (flw_ref otp : string)
    (type : option charge_type) : Eff JS.value :=
  try_catch
    (let type := match type with Some c => c | None => card end in
     let payload :=
       JS.Obj [("otp", JS.Str otp);
               ("flw_ref", JS.Str flw_ref);
               ("type", JS.Str (charge_type_value type))] in
     response_data <-
       axios_post (baseUrl this ++ "/validate-charge") payload
         (headers this) ;;
     status <- prop response_data "status" ;;
     if JS.strict_eq_str status "error"
     then msg <- prop response_data "message" ;;
          throw (ApiError httpStatus.BAD_REQUEST msg)
     else ret response_data)
    (report "Flutterwave charge validation failed:"
       "Charge validation failed").

Definition getCardBIN (this : t) (cardNumber : string) : Eff JS.value :=
  try_catch
    (response_data <-
       axios_get (baseUrl this ++ "/card-bins/" ++ cardNumber)
         (headers this) ;;
     status <- prop response_data "status" ;;
     if JS.strict_eq_str status "error"
     then msg <- prop response_data "message" ;;
          throw (ApiError httpStatus.BAD_REQUEST msg)
     else ret response_data)
    (report "Flutterwave card BIN lookup failed:" "Card BIN lookup failed").

Definition verifyPayment (this : t) (transactionId : string)
  : Eff JS.value :=
  try_catch
    (response_data <-
       axios_get (baseUrl this ++ "/transactions/" ++ transactionId
                    ++ "/verify")
         (headers this) ;;
     status <- prop response_data "status" ;;
     if JS.strict_eq_str status "error"
     then msg <- prop response_data "message" ;;
          throw (ApiError httpStatus.BAD_REQUEST msg)
     else ret response_data)
    (report "Flutterwave payment verification failed:"
       "Payment verification failed").

Definition voidPreauthorization (this : t) (transactionId : string)
  : Eff JS.value :=
  try_catch
    (response_data <-
       axios_post (baseUrl this ++ "/charges/" ++ transactionId ++ "/void")
         (JS.Obj []) (headers this) ;;
     status <- prop response_data "status" ;;
     if JS.strict_eq_str status "error"
     then msg <- prop response_data "message" ;;
          throw (ApiError httpStatus.BAD_REQUEST msg)
     else ret response_data)
    (report "Flutterwave void preauthorization failed:"
       "Void preauthorization failed").

End Methods.

End FlutterwaveApiService.

(** ** [class MomoService]: the MTN mobile-money wrapper *)

Module Momo.

Record MomoConfig : Type := {
  baseUrl : string;
  primaryKey : string;
  username : string;
  password : string;
  env : string
}.

(** The environment variables the constructor reads. *)
Record momo_env : Type := {
  MOMO_BASE_URL : option string;
  MOMO_PRIMARY_KEY : option string;
  MOMO_USERNAME : option string;
  MOMO_PASSWORD : option string;
  MOMO_ENV : option string
}.

(** One call of axios; [auth] is the basic-authentication pair of the
    request configuration, when there is one. *)
Record request : Type := {
  method : http_method;
  url : string;
  body : JS.value;
  auth : option (string * string);
  headers : list (string * string)
}.

Record world : Type := {
  requests : list request;
  logs : list log_entry
}.

(** Computations of the wrapper: state and exceptions over its world. *)
Definition M (A : Type) : Type := world -> JS.result A * world.

Definition ret {A} (a : A) : M A := fun w => (JS.Ok a, w).

Definition throw {A} (e : JS.exn) : M A := fun w => (JS.Throw e, w).

Definition bind {A B} (m : M A) (k : A -> M B) : M B :=
  fun w =>
    match m w with
    | (JS.Ok a, w') => k a w'
    | (JS.Throw e, w') => (JS.Throw e, w')
    end.

Definition try_catch {A} (m : M A) (handler : JS.exn -> M A) : M A :=
  fun w =>
    match m w with
    | (JS.Ok a, w') => (JS.Ok a, w')
    | (JS.Throw e, w') => handler e w'
    end.

Notation "x <~ m ;; k" := (bind m (fun x => k))
  (at level 61, m at next level, right associativity).

(** [logger.error]. *)
Definition logger_error (t : string) (d : JS.value) : M unit :=
  fun w =>
    (JS.Ok tt,
     {| requests := requests w;
        logs := (logs w ++ [{| level := Error; text := t; detail := d |}])%list
     |}).

(** [v.k]; a TypeError when [v] is [null] or [undefined]. *)
Definition prop (v : JS.value) (k : string) : M JS.value :=
  match JS.get v k with
  | Some x => ret x
  | None =>
      throw (JS.mk_exn JS.TypeError
               ("Cannot read properties of " ++ JS.ToString v
                  ++ " (reading '" ++ k ++ "')")
               JS.Undefined)
  end.

(** [headers[k] = v] on a header object. *)
Fixpoint set_header (k v : string) (h : list (string * string))
  : list (string * string) :=
  match h with
  | [] => [(k, v)]
  | (k', v') :: rest =>
      if k' =? k then (k, v) :: rest else (k', v') :: set_header k v rest
  end.

Fixpoint header (k : string) (h : list (string * string)) : option string :=
  match h with
  | [] => None
  | (k', v) :: rest => if k' =? k then Some v else header k rest
  end.

(** [s.replace("+", "")]: the first "+" of the string is removed. *)
Fixpoint remove_first_plus (s : string) : string :=
  match s with
  | EmptyString => EmptyString
  | String c rest =>
      if Ascii.eqb c "+"%char then rest else String c (remove_first_plus rest)
  end.

(** [v || d] for an environment variable or an optional string argument. *)
Definition or_default (v : option string) (d : string) : string :=
  match v with
  | Some s => if s =? "" then d else s
  | None => d
  end.

Definition validateConfig (config : MomoConfig) : JS.result unit :=
  if (primaryKey config =? "") || (username config =? "")
     || (password config =? "")
  then JS.Throw (ApiError httpStatus.INTERNAL_SERVER_ERROR
                   (JS.Str "MTN MOMO configuration is incomplete"))
  else JS.Ok tt.

Definition constructor (e : momo_env) : JS.result MomoConfig :=
  let config :=
    {| baseUrl := or_default (MOMO_BASE_URL e)
                    "https://proxy.momoapi.mtn.co.rw/collection";
       primaryKey := or_default (MOMO_PRIMARY_KEY e) "";
       username := or_default (MOMO_USERNAME e) "";
       password := or_default (MOMO_PASSWORD e) "";
       env := or_default (MOMO_ENV e) "mtnrwanda" |} in
  match validateConfig config with
  | JS.Ok _ => JS.Ok config
  | JS.Throw err => JS.Throw err
  end.

(** [getHeaders(token?)]; the token is whatever the token response held. *)
Definition getHeaders (config : MomoConfig) (token : JS.value)
  : list (string * string) :=
  let headers := [("Ocp-Apim-Subscription-Key", primaryKey config)] in
  if JS.truthy token
  then set_header "X-Target-Environment" (env config)
         (set_header "Authorization" ("Bearer " ++ JS.ToString token) headers)
  else headers.

Section Methods.

(** The gateway behind axios. *)
Variable network : list request -> request -> axios_outcome.

Definition axios (req : request) : M JS.value :=
  fun w =>
    let w' := {| requests := (requests w ++ [req])%list; logs := logs w |} in
    match network (requests w) req with
    | Resolves data => (JS.Ok data, w')
    | Rejects msg rd => (JS.Throw (JS.mk_exn JS.AxiosError msg rd), w')
    end.

(** The [catch (error)] clause of the three methods. Unlike the card
    service's, it does not fall back on [error.message]. *)
Definition report (label generic : string) {A} (error : JS.exn) : M A :=
  _ <~ logger_error label
         (JS.or_else (JS.response_data error) (JS.Str (JS.message error))) ;;
  throw (ApiError httpStatus.BAD_REQUEST
           (JS.or_else (JS.get_opt (JS.response_data error) "message")
              (JS.Str generic))).

Definition generateToken (config : MomoConfig) : M JS.value :=
  try_catch
    (axios {| method := POST;
              url := baseUrl config ++ "/token/";
              body := JS.Null;
              auth := Some (username config, password config);
              headers := getHeaders config JS.Undefined |})
    (report "MOMO token generation failed:" "Token generation failed").

(** The request body of [requestPayment]. *)
Definition requestData (config : MomoConfig) (amount : Z)
    (phoneNumber externalId : string) (payerMessage payeeNote : option string)
  : JS.value :=
  JS.Obj
    [("amount", JS.Num amount);
     ("currency", JS.Str (if env config =? "sandbox" then "EUR" else "RWF"));
     ("externalId", JS.Str externalId);
     ("payer", JS.Obj [("partyIdType", JS.Str "MSISDN");
                       ("partyId", JS.Str (remove_first_plus phoneNumber))]);
     ("payerMessage", JS.Str (or_default payerMessage ""));
     ("payeeNote", JS.Str (or_default payeeNote ""))].

Definition requestPayment (config : MomoConfig) (amount : Z)
    (phoneNumber externalId externalReference : string)
    (payerMessage payeeNote : option string) : M JS.value :=
  try_catch
    (tokenResponse <~ generateToken config ;;
     let requestData :=
       requestData config amount phoneNumber externalId payerMessage payeeNote
     in
     access_token <~ prop tokenResponse "access_token" ;;
     _ <~ axios {| method := POST;
                   url := baseUrl config ++ "/v1_0/requesttopay";
                   body := requestData;
                   auth := None;
                   headers :=
                     set_header "Content-Type" "application/json"
                       (set_header "X-Reference-Id" externalReference
                          (getHeaders config access_token)) |} ;;
     ret (JS.Obj [("referenceId", JS.Str externalReference)]))
    (report "MOMO payment request failed:" "Payment request failed").

Definition checkPaymentStatus (config : MomoConfig) (referenceId : string)
  : M JS.value :=
  try_catch
    (tokenResponse <~ generateToken config ;;
     access_token <~ prop tokenResponse "access_token" ;;
     axios {| method := GET;
              url := baseUrl config ++ "/v1_0/requesttopay/" ++ referenceId;
              body := JS.Undefined;
              auth := None;
              headers := getHeaders config access_token |})
    (report "MOMO payment status check failed:"
       "Payment status check failed").

End Methods.

End Momo.

(** ** A block cipher to run the service on

    Any pair of inverse block functions fits [Forge.TripleDES]; this one
    masks a block with the first eight key bytes. It stands in for 3DES where
    a concrete run is computed. *)

Module MaskCipher.

Definition xor_ascii (x y : ascii) : ascii :=
  match x, y with
  | Ascii a0 a1 a2 a3 a4 a5 a6 a7, Ascii b0 b1 b2 b3 b4 b5 b6 b7 =>
      Ascii (xorb a0 b0) (xorb a1 b1) (xorb a2 b2) (xorb a3 b3)
        (xorb a4 b4) (xorb a5 b5) (xorb a6 b6) (xorb a7 b7)
  end.

Fixpoint mask (k b : list ascii) : list ascii :=
  match k, b with
  | x :: k', y :: b' => xor_ascii y x :: mask k' b'
  | _, _ => []
  end.

Definition block (k b : list ascii) : list ascii := mask (firstn 8 k) b.

Definition cipher : Forge.TripleDES :=
  {| Forge.encrypt_block := block; Forge.decrypt_block := block |}.

End MaskCipher.

(** ** The operations, seen from outside

    The vocabulary the properties are stated in: the request an operation
    makes, and what it does with the settled promise. [ServiceFacts.invoke_run]
    proves that every method of the service is exactly that. *)

Module Run.
Import FlutterwaveApiService.

(** The bytes of the configured encryption key. *)
Definition key_bytes (this : t) : list ascii :=
  Forge.createBuffer (Some (encryptionKey (config this))).

(** The key is one node-forge accepts for 3DES. *)
Definition valid_key (this : t) : Prop := length (key_bytes this) = 24.

(** The world after one more request. *)
Definition sent (w : world) (req : request) : world :=
  {| env := env w; requests := (requests w ++ [req])%list; logs := logs w |}.

(** [null] or [undefined]. *)
Definition nullish (v : JS.value) : bool :=
  match v with
  | JS.Undefined | JS.Null => true
  | _ => false
  end.

(** The public operations with their arguments. *)
Inductive call : Type :=
| ChargeCard (data : CardPaymentData)
| ChargeWithToken (data : TokenizedChargeData.t)
| ValidateCharge (flw_ref otp : string) (type : option charge_type)
| GetCardBIN (cardNumber : string)
| VerifyPayment (transactionId : string)
| VoidPreauthorization (transactionId : string).

(** The message an operation reports when it has nothing better. *)
Definition generic_message (c : call) : string :=
  match c with
  | ChargeCard _ => "Card charge failed"
  | ChargeWithToken _ => "Tokenized charge failed"
  | ValidateCharge _ _ _ => "Charge validation failed"
  | GetCardBIN _ => "Card BIN lookup failed"
  | VerifyPayment _ => "Payment verification failed"
  | VoidPreauthorization _ => "Void preauthorization failed"
  end.

Definition failure_label (c : call) : string :=
  match c with
  | ChargeCard _ => "Flutterwave card charge failed:"
  | ChargeWithToken _ => "Flutterwave tokenized charge failed:"
  | ValidateCharge _ _ _ => "Flutterwave charge validation failed:"
  | GetCardBIN _ => "Flutterwave card BIN lookup failed:"
  | VerifyPayment _ => "Flutterwave payment verification failed:"
  | VoidPreauthorization _ => "Flutterwave void preauthorization failed:"
  end.

Section WithGateway.
Context {des : Forge.TripleDES}.
Variable network : list request -> request -> axios_outcome.

Definition invoke (this : t) (c : call) : Eff JS.value :=
  match c with
  | ChargeCard data => chargeCard network this data
  | ChargeWithToken data => chargeWithToken network this data
  | ValidateCharge flw_ref otp type =>
      validateCharge network this flw_ref otp type
  | GetCardBIN cardNumber => getCardBIN network this cardNumber
  | VerifyPayment transactionId => verifyPayment network this transactionId
  | VoidPreauthorization transactionId =>
      voidPreauthorization network this transactionId
  end.

(** What [encryptCardData] returns under a valid key, in the words of the
    specification: base64 of the ECB encryption of the serialized payload. *)
Definition ciphertext (this : t) (payload : JS.value) : string :=
  Forge.encode64
    (Forge.ecb_encrypt (key_bytes this)
       (Forge.createBuffer (JSON.stringify payload))).

(** The one request each operation makes. *)
Definition request_of (this : t) (e : process_env) (c : call) : request :=
  match c with
  | ChargeCard data =>
      {| method := POST;
         url := baseUrl this ++ "/charges?type=card";
         body := envelope (ciphertext this (cardData e data))
                   (cardData e data);
         request_headers := headers this |}
  | ChargeWithToken data =>
      {| method := POST;
         url := baseUrl this ++ "/tokenized-charges";
         body :=
           JS.Obj
             [("token", JS.Str (TokenizedChargeData.token data));
              ("currency",
               JS.or_else (opt_str (TokenizedChargeData.currency data))
                 (JS.Str "RWF"));
              ("amount",
               JS.Str (JS.Number_toString (TokenizedChargeData.amount data)));
              ("email", JS.Str (TokenizedChargeData.email data));
              ("tx_ref", JS.Str (TokenizedChargeData.tx_ref data));
              ("redirect_url", JS.Str (redirectUrl (config this)))];
         request_headers := headers this |}
  | ValidateCharge flw_ref otp type =>
      {| method := POST;
         url := baseUrl this ++ "/validate-charge";
         body :=
           JS.Obj [("otp", JS.Str otp);
                   ("flw_ref", JS.Str flw_ref);
                   ("type",
                    JS.Str (charge_type_value
                              match type with Some c => c | None => card end))];
         request_headers := headers this |}
  | GetCardBIN cardNumber =>
      {| method := GET;
         url := baseUrl this ++ "/card-bins/" ++ cardNumber;
         body := JS.Undefined;
         request_headers := headers this |}
  | VerifyPayment transactionId =>
      {| method := GET;
         url := baseUrl this ++ "/transactions/" ++ transactionId ++ "/verify";
         body := JS.Undefined;
         request_headers := headers this |}
  | VoidPreauthorization transactionId =>
      {| method := POST;
         url := baseUrl this ++ "/charges/" ++ transactionId ++ "/void";
         body := JS.Obj [];
         request_headers := headers this |}
  end.

(** The status check every operation applies to the response body. *)
Definition check_status (response_data : JS.value) : Eff JS.value :=
  status <- prop response_data "status" ;;
  if JS.strict_eq_str status "error"
  then msg <- prop response_data "message" ;;
       throw (ApiError httpStatus.BAD_REQUEST msg)
  else ret response_data.

(** The hint [chargeCard] looks for in a response body. *)
Definition authMode_of (response_data : JS.value) : JS.value :=
  JS.get_opt (JS.get_opt (JS.get_opt response_data "meta") "authorization")
    "mode".

(** The condition under which [chargeCard] flags a response. *)
Definition needs_validation (data : CardPaymentData)
    (response_data : JS.value) : bool :=
  JS.truthy (opt_bool (preauthorize data))
  && JS.strict_eq_str
       (JS.get_opt (JS.get_opt response_data "data") "status") "pending"
  && JS.truthy (authMode_of response_data).

(** The flagged response. *)
Definition flagged (response_data : JS.value) : JS.value :=
  JS.Obj
    (JS.set "flw_ref"
       (JS.get_opt (JS.get_opt response_data "data") "flw_ref")
       (JS.set "validation_mode" (authMode_of response_data)
          (JS.set "requires_validation" (JS.Bool true)
             (JS.spread response_data)))).

(** What an operation does once the promise of axios has settled. *)
Definition settled (c : call) (o : axios_outcome) : Eff JS.value :=
  match o with
  | Rejects msg rd => throw (JS.mk_exn JS.AxiosError msg rd)
  | Resolves response_data =>
      match c with
      | ChargeCard data =>
          r <- check_status response_data ;;
          if needs_validation data response_data
          then
            logger Info
              ("Preauthorization requires "
                 ++ JS.ToString (authMode_of response_data) ++ " validation")
              JS.Undefined ;;;
            ret (flagged response_data)
          else ret r
      | _ => check_status response_data
      end
  end.

End WithGateway.

(** The value the catch clause hands to [ApiError]. *)
Definition reported (error : JS.exn) (generic : string) : JS.value :=
  JS.or_else
    (JS.or_else (JS.get_opt (JS.response_data error) "message")
       (JS.Str (JS.message error)))
    (JS.Str generic).

End Run.

(** ** More concrete inputs *)

Module Cases.
Import FlutterwaveApiService.

(** An environment the constructor accepts, with a 16-character key. *)
Definition env_short_key : process_env :=
  {| FLUTTERWAVE_PUBLIC_KEY := Some "FLWPUBK_TEST";
     FLUTTERWAVE_SECRET_KEY := Some "FLWSECK_TEST";
     FLUTTERWAVE_ENCRYPTION_KEY := Some "sixteen-byte-key";
     FLUTTERWAVE_REDIRECT_URL := Some "https://merchant.example/callback";
     FLUTTERWAVE_TEST_MODE := None |}.

(** A gateway that refuses every request at the HTTP level. *)
Definition refuse (msg : string) (rd : JS.value)
  : list request -> request -> axios_outcome :=
  fun _ _ => Rejects msg rd.

Definition body_unauthorized : JS.value :=
  JS.Obj [("status", JS.Str "error"); ("message", JS.Str "Unauthorized")].

(** A cipher object under the fixture's key that has been used before: it
    still holds unconsumed input and earlier output. *)
Definition used_cipher : Forge.BlockCipher :=
  Forge.mk_cipher (list_ascii_of_string "0123456789abcdefghijklmn")
    (list_ascii_of_string "left") (list_ascii_of_string "earlier output").

Definition fresh_cipher : Forge.BlockCipher :=
  Forge.mk_cipher (list_ascii_of_string "0123456789abcdefghijklmn") [] [].

Definition service_short_key : t :=
  {| config :=
       {| publicKey := "FLWPUBK_TEST";
          secretKey := "FLWSECK_TEST";
          encryptionKey := "sixteen-byte-key";
          redirectUrl := "https://merchant.example/callback";
          isTestMode := false |};
     baseUrl := "https://api.flutterwave.com/v3";
     headers := [("Content-Type", "application/json");
                 ("Authorization", "Bearer FLWSECK_TEST")] |}.

End Cases.

(** ** The mobile-money wrapper, seen from outside *)

Module MomoRun.
Import Momo.

(** The request of [generateToken]. *)
Definition token_request (config : MomoConfig) : request :=
  {| method := POST;
     url := baseUrl config ++ "/token/";
     body := JS.Null;
     auth := Some (username config, password config);
     headers := getHeaders config JS.Undefined |}.

(** The second request of [requestPayment], under the token the first one
    has brought. *)
Definition payment_request (config : MomoConfig) (access_token : JS.value)
    (amount : Z) (phoneNumber externalId externalReference : string)
    (payerMessage payeeNote : option string) : request :=
  {| method := POST;
     url := baseUrl config ++ "/v1_0/requesttopay";
     body := requestData config amount phoneNumber externalId payerMessage
               payeeNote;
     auth := None;
     headers :=
       set_header "Content-Type" "application/json"
         (set_header "X-Reference-Id" externalReference
            (getHeaders config access_token)) |}.

(** The second request of [checkPaymentStatus]. *)
Definition status_request (config : MomoConfig) (access_token : JS.value)
    (referenceId : string) : request :=
  {| method := GET;
     url := baseUrl config ++ "/v1_0/requesttopay/" ++ referenceId;
     body := JS.Undefined;
     auth := None;
     headers := getHeaders config access_token |}.

(** The world after further requests and log lines. *)
Definition after (w : world) (made : list request) (lines : list log_entry)
  : world :=
  {| requests := (requests w ++ made)%list;
     logs := (logs w ++ lines)%list |}.

Definition error_line (label : string) (d : JS.value) : log_entry :=
  {| level := Error; text := label; detail := d |}.

(** The string has no "+". *)
Fixpoint no_plus (s : string) : bool :=
  match s with
  | EmptyString => true
  | String c rest => negb (Ascii.eqb c "+"%char) && no_plus rest
  end.

(** A configuration and gateway answers to run the wrapper on. *)
Definition config0 : MomoConfig :=
  {| baseUrl := "https://proxy.momoapi.mtn.co.rw/collection";
     primaryKey := "0f1c2d3e4b5a69788796a5b4c3d2e1f0";
     username := "api-user";
     password := "api-key";
     env := "mtnrwanda" |}.

Definition env0 : momo_env :=
  {| MOMO_BASE_URL := None;
     MOMO_PRIMARY_KEY := Some "0f1c2d3e4b5a69788796a5b4c3d2e1f0";
     MOMO_USERNAME := Some "api-user";
     MOMO_PASSWORD := Some "api-key";
     MOMO_ENV := Some "" |}.

Definition world0 : world := {| requests := []; logs := [] |}.

Definition token_body : JS.value :=
  JS.Obj [("access_token", JS.Str "eyJ0eXAiOiJKV1Qi");
          ("token_type", JS.Str "access_token");
          ("expires_in", JS.Num 3600)].

Definition status_failed : JS.value :=
  JS.Obj [("status", JS.Str "FAILED");
          ("reason", JS.Str "PAYER_NOT_FOUND")].

Definition always (o : axios_outcome)
  : list request -> request -> axios_outcome :=
  fun _ _ => o.

(** A gateway that issues a token and then refuses the next request. *)
Definition token_then_refuse (tok : JS.value) (msg : string) (rd : JS.value)
  : list request -> request -> axios_outcome :=
  fun made _ =>
    match made with
    | [] => Resolves tok
    | _ => Rejects msg rd
    end.

End MomoRun.

(** ** Worlds after a failure *)

Module Outcome.

(** The world after an operation that failed once its request was made. *)
Definition failed_world (w : world) (req : request) (label : string)
    (d : JS.value) : world :=
  {| env := env w;
     requests := (requests w ++ [req])%list;
     logs := (logs w ++ [{| level := Error; text := label; detail := d |}])%list
  |}.

End Outcome.

(** ** Concrete inputs *)

Module Fixture.
Import FlutterwaveApiService.

Definition env0 : process_env :=
  {| FLUTTERWAVE_PUBLIC_KEY := Some "FLWPUBK_TEST";
     FLUTTERWAVE_SECRET_KEY := Some "FLWSECK_TEST";
     FLUTTERWAVE_ENCRYPTION_KEY := Some "0123456789abcdefghijklmn";
     FLUTTERWAVE_REDIRECT_URL := Some "https://merchant.example/callback";
     FLUTTERWAVE_TEST_MODE := Some "true" |}.

(** The service [new FlutterwaveApiService()] gives in [env0]. *)
Definition service0 : t :=
  {| config :=
       {| publicKey := "FLWPUBK_TEST";
          secretKey := "FLWSECK_TEST";
          encryptionKey := "0123456789abcdefghijklmn";
          redirectUrl := "https://merchant.example/callback";
          isTestMode := true |};
     baseUrl := "https://api.flutterwave.com/v3";
     headers := [("Content-Type", "application/json");
                 ("Authorization", "Bearer FLWSECK_TEST")] |}.

Definition world0 : world := {| env := env0; requests := []; logs := [] |}.

(** A gateway that gives every request the same answer. *)
Definition answer (body : JS.value)
  : list request -> request -> axios_outcome :=
  fun _ _ => Resolves body.

(** PIN mode, no pin. *)
Definition pin_mode_without_pin : Authorization :=
  {| mode := AuthorizationMode.PIN; pin := None; otp := None; city := None;
     address := None; state := None; country := None; zipcode := None |}.

Definition charge (pre : option bool) (name : option string)
    (a : option Authorization) : CardPaymentData :=
  {| card_number := "4187427415564246"; cvv := "828"; expiry_month := "09";
     expiry_year := "32"; amount := 1000; email := "user@example.com";
     tx_ref := "MC-3243e"; currency := None; fullname := name;
     preauthorize := pre; authorization := a |}.

(** A name with the character U+00E9. *)
Definition accented_name : string := "Jos" ++ String (ascii_of_N 233) "".

(** Gateway bodies. *)
Definition body_successful : JS.value :=
  JS.Obj [("status", JS.Str "success");
          ("data", JS.Obj [("status", JS.Str "successful")])].

Definition body_pending_otp : JS.value :=
  JS.Obj [("status", JS.Str "success");
          ("data", JS.Obj [("status", JS.Str "pending");
                           ("flw_ref", JS.Str "FLW123")]);
          ("meta", JS.Obj [("authorization",
                            JS.Obj [("mode", JS.Str "otp")])])].

Definition body_error_pending_otp : JS.value :=
  JS.Obj [("status", JS.Str "error");
          ("message", JS.Str "Declined");
          ("data", JS.Obj [("status", JS.Str "pending");
                           ("flw_ref", JS.Str "FLW123")]);
          ("meta", JS.Obj [("authorization",
                            JS.Obj [("mode", JS.Str "otp")])])].

(** A pending body whose hint is the empty string. *)
Definition body_pending_empty_hint : JS.value :=
  JS.Obj [("status", JS.Str "success");
          ("data", JS.Obj [("status", JS.Str "pending");
                           ("flw_ref", JS.Str "FLW123")]);
          ("meta", JS.Obj [("authorization", JS.Obj [("mode", JS.Str "")])])].

Definition body_unknown : JS.value :=
  JS.Obj [("status", JS.Str "success");
          ("data", JS.Obj [("status", JS.Str "chargeback_in_review")])].

Definition body_error : JS.value :=
  JS.Obj [("status", JS.Str "error"); ("message", JS.Str "Invalid card")].

End Fixture.

(** ** Readings of the specification's vocabulary *)

Module Reading.

(** Some string of the value, a property name included, is [s]. *)
Fixpoint mentions (s : string) (v : JS.value) : bool :=
  match v with
  | JS.Str t => t =? s
  | JS.Arr items =>
      (fix any (l : list JS.value) : bool :=
         match l with
         | [] => false
         | x :: r => mentions s x || any r
         end) items
  | JS.Obj props =>
      (fix any (l : list (string * JS.value)) : bool :=
         match l with
         | [] => false
         | (k, x) :: r => (k =? s) || mentions s x || any r
         end) props
  | _ => false
  end.

(** Authorization data that breaks the invariant of its mode: PIN without a
    pin, OTP without an otp, AVS without one of the address fields. *)
Definition inconsistent (a : Authorization) : bool :=
  match mode a with
  | AuthorizationMode.PIN => negb (JS.truthy (opt_str (pin a)))
  | AuthorizationMode.OTP => negb (JS.truthy (opt_str (otp a)))
  | AuthorizationMode.AVS_NOAUTH =>
      negb (JS.truthy (opt_str (address a)) && JS.truthy (opt_str (city a))
            && JS.truthy (opt_str (state a))
            && JS.truthy (opt_str (country a))
            && JS.truthy (opt_num (zipcode a)))
  | _ => false
  end.

(** The field of the [authorization] input a property of the payload comes
    from. *)
Definition authorization_field (a : Authorization) (k : string) : JS.value :=
  if k =? "pin" then opt_str (pin a)
  else if k =? "otp" then opt_str (otp a)
  else if k =? "city" then opt_str (city a)
  else if k =? "address" then opt_str (address a)
  else if k =? "state" then opt_str (state a)
  else if k =? "country" then opt_str (country a)
  else if k =? "zipcode" then opt_num (zipcode a)
  else JS.Undefined.

End Reading.

(** * Properties *)

(** ** The masking cipher is a lawful block cipher *)

Module MaskCipherFacts.
Import MaskCipher.

Lemma xor_ascii_involutive x y : xor_ascii (xor_ascii y x) x = y.
Proof.
  destruct x, y; simpl; f_equal;
    match goal with |- xorb (xorb ?a ?b) ?b = ?a => destruct a, b end;
    reflexivity.
Qed.

Lemma mask_length k b : length b <= length k -> length (mask k b) = length b.
Proof.
  revert b; induction k as [|x k IH]; intros [|y b] Hl; simpl in *;
    try reflexivity; try lia.
  rewrite IH; lia.
Qed.

Lemma mask_involutive k b :
  length b <= length k -> mask k (mask k b) = b.
Proof.
  revert b; induction k as [|x k IH]; intros [|y b] Hl; simpl in *;
    try reflexivity; try lia.
  rewrite xor_ascii_involutive, IH; [reflexivity | lia].
Qed.

Lemma block_length k b :
  length k = 24 -> length b = 8 -> length (block k b) = 8.
Proof.
  intros Hk Hb. unfold block.
  rewrite mask_length; rewrite ?length_firstn; lia.
Qed.

Lemma block_involutive k b :
  length k = 24 -> length b = 8 -> block k (block k b) = b.
Proof.
  intros Hk Hb. unfold block.
  apply mask_involutive. rewrite length_firstn. lia.
Qed.

Lemma cipher_lawful : Forge.lawful cipher.
Proof. split; [exact block_length | exact block_involutive]. Qed.

End MaskCipherFacts.

(** ** The cipher object computes ECB encryption *)

Module ForgeFacts.
Import Forge.

Section WithCipher.
Context {des : TripleDES}.

(** Lists shorter than a block are left alone by [consume]. *)
Lemma consume_short k l : length l < 8 -> consume k l = ([], l).
Proof.
  intros Hl.
  do 8 (destruct l as [|? l]; [reflexivity|]).
  simpl in Hl; lia.
Qed.

Lemma consume_block k b0 b1 b2 b3 b4 b5 b6 b7 rest :
  consume k (b0 :: b1 :: b2 :: b3 :: b4 :: b5 :: b6 :: b7 :: rest) =
  ((encrypt_block k [b0; b1; b2; b3; b4; b5; b6; b7]
      ++ fst (consume k rest))%list,
   snd (consume k rest)).
Proof. simpl. destruct (consume k rest); reflexivity. Qed.

(** A list is either shorter than a block or starts with one. *)
Lemma block_or_short (l : list ascii) :
  length l < 8 \/
  exists b0 b1 b2 b3 b4 b5 b6 b7 rest,
    l = b0 :: b1 :: b2 :: b3 :: b4 :: b5 :: b6 :: b7 :: rest.
Proof.
  do 8 (destruct l as [|? l]; [left; simpl; lia|]).
  right. repeat eexists.
Qed.

(** Induction on a list block by block. *)
Lemma block_ind (P : list ascii -> Prop) :
  (forall l, length l < 8 -> P l) ->
  (forall b0 b1 b2 b3 b4 b5 b6 b7 rest,
      P rest -> P (b0 :: b1 :: b2 :: b3 :: b4 :: b5 :: b6 :: b7 :: rest)) ->
  forall l, P l.
Proof.
  intros Hshort Hblock l.
  remember (length l) as n eqn:Hn.
  revert l Hn. induction n as [n IH] using lt_wf_ind. intros l Hn.
  destruct (block_or_short l)
    as [Hl | (b0 & b1 & b2 & b3 & b4 & b5 & b6 & b7 & rest & ->)].
  - apply Hshort, Hl.
  - apply Hblock. apply (IH (length rest)); [simpl in Hn; lia | reflexivity].
Qed.

(** What [consume] leaves is shorter than a block and is the input's length
    modulo 8. *)
Lemma consume_remaining k l :
  length (snd (consume k l)) < 8 /\
  exists q, length l = 8 * q + length (snd (consume k l)).
Proof.
  induction l as [l Hl | b0 b1 b2 b3 b4 b5 b6 b7 rest [IH1 [q IH2]]]
    using block_ind.
  - rewrite consume_short by assumption. simpl. split; [assumption|].
    exists 0. lia.
  - rewrite consume_block. simpl fst; simpl snd. split; [assumption|].
    exists (S q). simpl length. lia.
Qed.

Lemma consume_remaining_mod k l :
  length (snd (consume k l)) = length l mod 8.
Proof.
  destruct (consume_remaining k l) as [Hlt [q Hq]].
  apply Nat.mod_unique with (q := q); assumption.
Qed.

(** Consuming an input in two parts: what the first part leaves is put in
    front of the second. *)
Lemma consume_app k l t :
  consume k (l ++ t)%list =
  ((fst (consume k l) ++ fst (consume k (snd (consume k l) ++ t)))%list,
   snd (consume k (snd (consume k l) ++ t)%list)).
Proof.
  induction l as [l Hl | b0 b1 b2 b3 b4 b5 b6 b7 rest IH] using block_ind.
  - rewrite (consume_short k l) by assumption. simpl.
    destruct (consume k (l ++ t)%list); reflexivity.
  - change ((b0 :: b1 :: b2 :: b3 :: b4 :: b5 :: b6 :: b7 :: rest) ++ t)%list
      with (b0 :: b1 :: b2 :: b3 :: b4 :: b5 :: b6 :: b7 :: (rest ++ t)%list).
    rewrite !consume_block, IH. simpl fst; simpl snd.
    rewrite app_assoc. reflexivity.
Qed.

(** On an input that is a whole number of blocks, [consume] encrypts the
    blocks of the specification one by one. *)
Lemma consume_blocks k l :
  forall n fuel, length l = 8 * n -> n <= fuel ->
  consume k l = (concat (map (encrypt_block k) (blocks fuel l)), []).
Proof.
  induction l as [l Hl | b0 b1 b2 b3 b4 b5 b6 b7 rest IH] using block_ind;
    intros n fuel Hn Hfuel.
  - assert (l = []) as -> by (destruct l; [reflexivity | simpl in *; lia]).
    destruct fuel; reflexivity.
  - destruct fuel as [|fuel]; [simpl in Hn; lia|].
    destruct n as [|n]; [simpl in Hn; lia|].
    rewrite consume_block.
    rewrite (IH n fuel) by (simpl in Hn; lia).
    reflexivity.
Qed.

Lemma pkcs7_pad_length bs :
  exists n, length (pkcs7_pad bs) = 8 * n /\ n <= length (pkcs7_pad bs).
Proof.
  unfold pkcs7_pad. rewrite length_app, repeat_length.
  pose proof (Nat.mod_upper_bound (length bs) 8 ltac:(lia)) as Hm.
  pose proof (Nat.div_mod_eq (length bs) 8) as Hd.
  exists (S (length bs / 8)). lia.
Qed.

(** The call sequence of [encryptCardData] on a cipher object (start, update
    with the whole plaintext, finish, read the output) yields the ECB
    encryption of the plaintext, whatever the initialization vector passed to
    [start] and whatever the object held before. *)
Lemma cipher_run_is_ecb iv c data :
  getBytes (finish (update data (start iv c))) = ecb_encrypt (key c) data.
Proof.
  unfold getBytes, finish, update, start. cbn [key _input output app].
  destruct (consume (key c) data) as [out1 left1] eqn:E1.
  cbn [key _input output].
  destruct (consume (key c) (pad left1)) as [out2 left2] eqn:E2.
  cbn [output app].
  pose proof (consume_remaining (key c) data) as [Hlt _].
  pose proof (consume_remaining_mod (key c) data) as Hmod.
  rewrite E1 in Hlt, Hmod; cbn [snd] in Hlt, Hmod.
  unfold ecb_encrypt.
  destruct (pkcs7_pad_length data) as [n [Hn Hfuel]].
  pose proof (consume_blocks (key c) (pkcs7_pad data) n _ Hn Hfuel) as Hspec.
  unfold pkcs7_pad in Hspec at 1. rewrite consume_app, E1 in Hspec.
  cbn [fst snd] in Hspec.
  assert (pad left1
          = (left1 ++ repeat (ascii_of_nat (8 - length data mod 8))
                        (8 - length data mod 8))%list) as Hpad.
  { unfold pad. rewrite <- Hmod.
    destruct (Nat.eqb_spec (length left1) 8); [lia | reflexivity]. }
  rewrite <- Hpad, E2 in Hspec. cbn [fst snd] in Hspec.
  injection Hspec as Hout _. exact Hout.
Qed.

(** *** Decryption undoes encryption *)

Lemma concat_whole_blocks_length bl :
  whole_blocks bl -> length (concat bl) = 8 * length bl.
Proof.
  induction 1 as [|b bl Hb _ IH]; [reflexivity|].
  simpl concat. rewrite length_app, IH, Hb. simpl length. lia.
Qed.

(** Cutting a concatenation of whole blocks gives the blocks back. *)
Lemma blocks_concat bl :
  whole_blocks bl -> forall fuel, length bl <= fuel ->
  blocks fuel (concat bl) = bl.
Proof.
  induction 1 as [|b bl Hb Hbl IH]; intros fuel Hfuel.
  - destruct fuel; reflexivity.
  - destruct fuel as [|fuel]; [simpl in Hfuel; lia|].
    simpl concat.
    destruct b as [|b0 b]; [discriminate Hb|].
    change (blocks (S fuel) ((b0 :: b) ++ concat bl)%list)
      with (firstn 8 ((b0 :: b) ++ concat bl)%list
              :: blocks fuel (skipn 8 ((b0 :: b) ++ concat bl)%list)).
    rewrite firstn_app, skipn_app, Hb, Nat.sub_diag.
    rewrite firstn_all2, skipn_all2 by lia.
    rewrite firstn_O, skipn_O, app_nil_r. cbn [app].
    rewrite IH by (simpl in Hfuel; lia). reflexivity.
Qed.

(** A list that is a whole number of blocks is cut into whole blocks. *)
Lemma blocks_whole l :
  forall n fuel, length l = 8 * n -> n <= fuel ->
  whole_blocks (blocks fuel l) /\ concat (blocks fuel l) = l.
Proof.
  induction l as [l Hl | b0 b1 b2 b3 b4 b5 b6 b7 rest IH] using block_ind;
    intros n fuel Hn Hfuel.
  - assert (l = []) as -> by (destruct l; [reflexivity | simpl in *; lia]).
    destruct fuel; split; constructor.
  - destruct fuel as [|fuel]; [simpl in Hn; lia|].
    destruct n as [|n]; [simpl in Hn; lia|].
    destruct (IH n fuel) as [Hw Hc]; [simpl in Hn; lia | lia |].
    change (blocks (S fuel)
              (b0 :: b1 :: b2 :: b3 :: b4 :: b5 :: b6 :: b7 :: rest))
      with ([b0; b1; b2; b3; b4; b5; b6; b7] :: blocks fuel rest).
    split.
    + constructor; [reflexivity | exact Hw].
    + simpl concat. rewrite Hc. reflexivity.
Qed.

Lemma map_encrypt_whole k bl :
  lawful des -> length k = 24 -> whole_blocks bl ->
  whole_blocks (map (encrypt_block k) bl).
Proof.
  intros [Hlen _] Hk. induction 1 as [|b bl Hb _ IH]; constructor.
  - apply Hlen; assumption.
  - exact IH.
Qed.

Lemma map_decrypt_encrypt k bl :
  lawful des -> length k = 24 -> whole_blocks bl ->
  map (decrypt_block k) (map (encrypt_block k) bl) = bl.
Proof.
  intros [_ Hinv] Hk. induction 1 as [|b bl Hb _ IH]; [reflexivity|].
  simpl. rewrite Hinv, IH by assumption. reflexivity.
Qed.

Lemma pkcs7_unpad_pad bs : pkcs7_unpad (pkcs7_pad bs) = bs.
Proof.
  unfold pkcs7_unpad, pkcs7_pad.
  pose proof (Nat.mod_upper_bound (length bs) 8 ltac:(lia)) as Hm.
  remember (8 - length bs mod 8) as m eqn:Em.
  destruct m as [|m]; [lia|].
  assert (last (bs ++ repeat (ascii_of_nat (S m)) (S m)) zero
          = ascii_of_nat (S m)) as ->.
  { change (repeat (ascii_of_nat (S m)) (S m))
      with (ascii_of_nat (S m) :: repeat (ascii_of_nat (S m)) m).
    rewrite repeat_cons, app_assoc. apply last_last. }
  rewrite nat_ascii_embedding by lia.
  rewrite length_app, repeat_length.
  replace (length bs + S m - S m) with (length bs + 0) by lia.
  rewrite firstn_app_2. simpl. apply app_nil_r.
Qed.

(** Round trip of the cipher: decrypting the ECB encryption gives the
    plaintext back. *)
Lemma ecb_decrypt_encrypt k bs :
  lawful des -> length k = 24 -> ecb_decrypt k (ecb_encrypt k bs) = bs.
Proof.
  intros Hdes Hk. unfold ecb_decrypt, ecb_encrypt.
  destruct (pkcs7_pad_length bs) as [n [Hn Hfuel]].
  destruct (blocks_whole (pkcs7_pad bs) n _ Hn Hfuel) as [Hw Hc].
  set (bl := blocks (length (pkcs7_pad bs)) (pkcs7_pad bs)) in *.
  pose proof (map_encrypt_whole k bl Hdes Hk Hw) as Hew.
  rewrite blocks_concat; [| exact Hew |].
  - rewrite map_decrypt_encrypt, Hc by assumption. apply pkcs7_unpad_pad.
  - rewrite concat_whole_blocks_length by exact Hew. lia.
Qed.

End WithCipher.

(** *** base64 decoding undoes encoding *)

Lemma b64_index_char n : (n < 64)%N -> b64_index (b64_char n) = Some n.
Proof.
  intros Hn.
  rewrite <- (N2Nat.id n) in *.
  remember (N.to_nat n) as m eqn:Em. clear Em n.
  do 64 (destruct m as [|m]; [reflexivity|]).
  lia.
Qed.

Lemma b64_index_pad : b64_index "="%char = None.
Proof. reflexivity. Qed.

(** Bytes to sextets and back. *)
Lemma sextet1_bound x : (x < 256)%N -> (x / 4 < 64)%N.
Proof.
  intros Hx. apply N.Div0.div_lt_upper_bound; lia. Qed.

Lemma sextet2_bound x y : (y < 256)%N -> (x mod 4 * 16 + y / 16 < 64)%N.
Proof.
  intros Hy.
  pose proof (N.mod_upper_bound x 4 ltac:(lia)).
  assert (y / 16 < 16)%N by (apply N.Div0.div_lt_upper_bound; lia).
  lia.
Qed.

Lemma sextet3_bound y z : (z < 256)%N -> (y mod 16 * 4 + z / 64 < 64)%N.
Proof.
  intros Hz.
  pose proof (N.mod_upper_bound y 16 ltac:(lia)).
  assert (z / 64 < 4)%N by (apply N.Div0.div_lt_upper_bound; lia).
  lia.
Qed.

Lemma sextet4_bound z : (z mod 64 < 64)%N.
Proof. apply N.mod_upper_bound; lia. Qed.

Lemma byte1_back x y :
  (y < 256)%N -> (x / 4 * 4 + (x mod 4 * 16 + y / 16) / 16 = x)%N.
Proof.
  intros Hy.
  assert (y / 16 < 16)%N by (apply N.Div0.div_lt_upper_bound; lia).
  rewrite N.div_add_l by lia.
  rewrite (N.div_small (y / 16) 16) by assumption.
  pose proof (N.div_mod x 4 ltac:(lia)). lia.
Qed.

Lemma byte2_back x y z :
  (y < 256)%N -> (z < 256)%N ->
  ((x mod 4 * 16 + y / 16) mod 16 * 16 + (y mod 16 * 4 + z / 64) / 4 = y)%N.
Proof.
  intros Hy Hz.
  assert (y / 16 < 16)%N by (apply N.Div0.div_lt_upper_bound; lia).
  assert (z / 64 < 4)%N by (apply N.Div0.div_lt_upper_bound; lia).
  rewrite (N.add_comm (x mod 4 * 16)), N.Div0.mod_add.
  rewrite (N.mod_small (y / 16) 16) by assumption.
  rewrite N.div_add_l by lia.
  rewrite (N.div_small (z / 64) 4) by assumption.
  pose proof (N.div_mod y 16 ltac:(lia)). lia.
Qed.

Lemma byte3_back y z :
  (z < 256)%N -> ((y mod 16 * 4 + z / 64) mod 4 * 64 + z mod 64 = z)%N.
Proof.
  intros Hz.
  assert (z / 64 < 4)%N by (apply N.Div0.div_lt_upper_bound; lia).
  rewrite (N.add_comm (y mod 16 * 4)), N.Div0.mod_add.
  rewrite (N.mod_small (z / 64) 4) by assumption.
  pose proof (N.div_mod z 64 ltac:(lia)). lia.
Qed.

(** The two-byte tail: the third sextet carries four bits of the second byte
    and two zero bits. *)
Lemma byte2_back_tail x y :
  (y < 256)%N ->
  ((x mod 4 * 16 + y / 16) mod 16 * 16 + (y mod 16 * 4) / 4 = y)%N.
Proof.
  intros Hy.
  assert (y / 16 < 16)%N by (apply N.Div0.div_lt_upper_bound; lia).
  rewrite (N.add_comm (x mod 4 * 16)), N.Div0.mod_add.
  rewrite (N.mod_small (y / 16) 16) by assumption.
  rewrite N.div_mul by lia.
  pose proof (N.div_mod y 16 ltac:(lia)). lia.
Qed.

Lemma sextet3_tail_bound y : (y mod 16 * 4 < 64)%N.
Proof. pose proof (N.mod_upper_bound y 16 ltac:(lia)). lia. Qed.

(** The one-byte tail. *)
Lemma byte1_back_tail x : (x / 4 * 4 + (x mod 4 * 16) / 16 = x)%N.
Proof.
  rewrite N.div_mul by lia.
  pose proof (N.div_mod x 4 ltac:(lia)). lia.
Qed.

Lemma sextet2_tail_bound x : (x mod 4 * 16 < 64)%N.
Proof. pose proof (N.mod_upper_bound x 4 ltac:(lia)). lia. Qed.


(** Induction on a list three elements at a time. *)
Lemma triple_ind (P : list ascii -> Prop) :
  P [] -> (forall a, P [a]) -> (forall a b, P [a; b]) ->
  (forall a b c rest, P rest -> P (a :: b :: c :: rest)) ->
  forall l, P l.
Proof.
  intros H0 H1 H2 H3 l.
  remember (length l) as n eqn:Hn.
  revert l Hn. induction n as [n IH] using lt_wf_ind. intros l Hn.
  destruct l as [|a [|b [|c rest]]]; auto.
  apply H3. apply (IH (length rest)); [simpl in Hn; lia | reflexivity].
Qed.

Lemma decode64_encode64_bytes bs : decode64_chars (encode64_bytes bs) = bs.
Proof.
  induction bs as [| a | a b | a b c rest IH] using triple_ind.
  - reflexivity.
  - pose proof (N_ascii_bounded a) as Ha.
    cbn [encode64_bytes decode64_chars].
    rewrite !b64_index_char
      by auto using sextet1_bound, sextet2_tail_bound.
    rewrite b64_index_pad, byte1_back_tail, ascii_N_embedding. reflexivity.
  - pose proof (N_ascii_bounded a) as Ha. pose proof (N_ascii_bounded b) as Hb.
    cbn [encode64_bytes decode64_chars].
    rewrite !b64_index_char
      by auto using sextet1_bound, sextet2_bound, sextet3_tail_bound.
    rewrite b64_index_pad, byte1_back, byte2_back_tail by assumption.
    rewrite !ascii_N_embedding. reflexivity.
  - pose proof (N_ascii_bounded a) as Ha. pose proof (N_ascii_bounded b) as Hb.
    pose proof (N_ascii_bounded c) as Hc.
    cbn [encode64_bytes decode64_chars].
    rewrite !b64_index_char
      by auto using sextet1_bound, sextet2_bound, sextet3_bound,
           sextet4_bound.
    rewrite byte1_back, byte2_back, byte3_back by assumption.
    rewrite !ascii_N_embedding, IH. reflexivity.
Qed.

Lemma decode64_encode64 bs : decode64 (encode64 bs) = bs.
Proof.
  unfold decode64, encode64.
  rewrite list_ascii_of_string_of_list_ascii.
  apply decode64_encode64_bytes.
Qed.

(** *** Raw bytes and UTF-8 *)

(** On a text of 7-bit characters the raw bytes are the UTF-8 encoding. *)
Lemma createBuffer_utf8 s :
  is_ascii s -> createBuffer (Some s) = encodeUtf8 s.
Proof.
  unfold is_ascii, createBuffer, encodeUtf8.
  induction 1 as [|c l Hc _ IH]; [reflexivity|].
  simpl flat_map. unfold encodeUtf8_char at 1.
  apply N.ltb_lt in Hc. rewrite Hc. simpl. f_equal. exact IH.
Qed.

(** *** No chaining between blocks *)

Section Chaining.
Context {des : TripleDES}.

Lemma ecb_encrypt_is_consume k l :
  ecb_encrypt k l = fst (consume k (pkcs7_pad l)).
Proof.
  unfold ecb_encrypt. destruct (pkcs7_pad_length l) as [n [Hn Hfuel]].
  rewrite (consume_blocks k (pkcs7_pad l) n _ Hn Hfuel). reflexivity.
Qed.

Lemma pkcs7_pad_block b rest :
  length b = 8 -> pkcs7_pad (b ++ rest)%list = (b ++ pkcs7_pad rest)%list.
Proof.
  intros Hb. unfold pkcs7_pad. rewrite length_app, Hb.
  assert ((8 + length rest) mod 8 = length rest mod 8) as ->.
  { pose proof (Nat.mod_upper_bound (length rest) 8 ltac:(lia)) as Hm.
    pose proof (Nat.div_mod_eq (length rest) 8) as Hd.
    symmetry. apply Nat.mod_unique with (q := S (length rest / 8)); lia. }
  rewrite app_assoc. reflexivity.
Qed.

(** The first block of the plaintext is encrypted on its own: its
    ciphertext depends on nothing that follows, and what follows is
    encrypted as if it stood alone. *)
Lemma ecb_first_block k b rest :
  length b = 8 ->
  ecb_encrypt k (b ++ rest)%list
  = (encrypt_block k b ++ ecb_encrypt k rest)%list.
Proof.
  intros Hb. rewrite !ecb_encrypt_is_consume, pkcs7_pad_block by exact Hb.
  do 8 (destruct b as [|? b]; [discriminate Hb|]).
  destruct b; [|discriminate Hb].
  cbn [app]. rewrite consume_block. reflexivity.
Qed.

End Chaining.

Lemma encodeUtf8_length_ge l :
  length l <= length (flat_map encodeUtf8_char l).
Proof.
  induction l as [|c l IH]; [reflexivity|].
  cbn [flat_map]. rewrite length_app. unfold encodeUtf8_char at 1.
  destruct (N_of_ascii c <? 128)%N; simpl length; lia.
Qed.

(** A character above U+007F takes two bytes in UTF-8, so the raw bytes are
    the UTF-8 encoding of no other text. *)
Lemma createBuffer_utf8_only s :
  createBuffer (Some s) = encodeUtf8 s -> is_ascii s.
Proof.
  unfold is_ascii, createBuffer, encodeUtf8.
  intros H. apply (f_equal (@length ascii)) in H.
  induction (list_ascii_of_string s) as [|c l IH]; [constructor|].
  cbn [flat_map] in H. rewrite length_app in H.
  pose proof (encodeUtf8_length_ge l) as Hge.
  unfold encodeUtf8_char at 1 in H.
  destruct (N.ltb_spec (N_of_ascii c) 128) as [Hc | Hc]; simpl length in H.
  - constructor; [exact Hc | apply IH; lia].
  - exfalso. lia.
Qed.

Lemma createBuffer_utf8_iff s :
  createBuffer (Some s) = encodeUtf8 s <-> is_ascii s.
Proof. split; [apply createBuffer_utf8_only | apply createBuffer_utf8]. Qed.

End ForgeFacts.

(** ** How the service runs *)

Module ServiceFacts.
Import FlutterwaveApiService Run.

Section WithGateway.
Context {des : Forge.TripleDES}.
Variable network : list request -> request -> axios_outcome.

(** Unfolds the monad so that a run can be followed step by step. *)
Ltac run :=
  cbv beta iota zeta
    delta [try_catch bind ret throw lift process_env_now logger prop
           axios_post axios_get axios settled check_status sent
           fst snd].

(** *** Construction *)

(** In a complete environment the constructor gives the service its
    configuration; the fixture's service is the one of its environment. *)
Lemma constructor_fixture :
  constructor Fixture.env0 = JS.Ok Fixture.service0.
Proof. reflexivity. Qed.

(** With the encryption key unset or empty there is no service. *)
Lemma constructor_incomplete e :
  missing (FLUTTERWAVE_ENCRYPTION_KEY e) = true ->
  constructor e =
  JS.Throw (ApiError httpStatus.INTERNAL_SERVER_ERROR
              (JS.Str "Flutterwave configuration is incomplete")).
Proof.
  intros H. unfold constructor. rewrite H, !orb_true_r. reflexivity.
Qed.

(** *** Reading properties *)

Lemma get_not_nullish v k :
  nullish v = false -> JS.get v k = Some (JS.get_opt v k).
Proof.
  unfold JS.get_opt. destruct v; simpl; try discriminate; try reflexivity.
  intros _. destruct (JS.lookup k props); reflexivity.
Qed.

Lemma get_some_not_nullish v k x : JS.get v k = Some x -> nullish v = false.
Proof. destruct v; simpl; intros H; try discriminate; reflexivity. Qed.

Lemma get_nullish v k : nullish v = true -> JS.get v k = None.
Proof. destruct v; simpl; intros H; try discriminate; reflexivity. Qed.

Lemma strict_eq_get_opt_not_nullish v k s :
  JS.strict_eq_str (JS.get_opt v k) s = true -> nullish v = false.
Proof. destruct v; simpl; intros H; try discriminate; reflexivity. Qed.

Lemma lookup_set_same k v props : JS.lookup k (JS.set k v props) = Some v.
Proof.
  induction props as [|[k' v'] props IH]; simpl.
  - rewrite String.eqb_refl. reflexivity.
  - destruct (String.eqb k' k) eqn:E; simpl.
    + rewrite String.eqb_refl. reflexivity.
    + rewrite E. exact IH.
Qed.

Lemma lookup_set_other k k' v props :
  k <> k' -> JS.lookup k' (JS.set k v props) = JS.lookup k' props.
Proof.
  intros Hk. induction props as [|[k0 v0] props IH]; simpl.
  - apply String.eqb_neq in Hk. rewrite Hk. reflexivity.
  - destruct (String.eqb k0 k) eqn:E; simpl.
    + apply String.eqb_eq in E. subst k0.
      apply String.eqb_neq in Hk. rewrite Hk. reflexivity.
    + destruct (String.eqb k0 k'); [reflexivity | exact IH].
Qed.

(** *** The encoder *)

Lemma encryptCardData_valid this payload :
  valid_key this ->
  encryptCardData this payload = JS.Ok (ciphertext this payload).
Proof.
  unfold valid_key, key_bytes, encryptCardData, ciphertext, Forge.createCipher.
  intros Hk. rewrite Hk. cbn [Nat.eqb].
  rewrite ForgeFacts.cipher_run_is_ecb. reflexivity.
Qed.

Lemma encryptCardData_invalid this payload :
  ~ valid_key this -> exists e, encryptCardData this payload = JS.Throw e.
Proof.
  unfold valid_key, key_bytes, encryptCardData, Forge.createCipher.
  intros Hk. apply Nat.eqb_neq in Hk. rewrite Hk. eexists. reflexivity.
Qed.

(** *** Every operation: one request, then the settled promise is handled *)

Lemma invoke_run this c w :
  match c with ChargeCard _ => valid_key this | _ => True end ->
  invoke network this c w =
  try_catch (settled c (network (requests w) (request_of this (env w) c)))
    (report (failure_label c) (generic_message c))
    (sent w (request_of this (env w) c)).
Proof.
  intros Hk. destruct c; cbn [invoke request_of failure_label generic_message].
  - unfold chargeCard. run. rewrite (encryptCardData_valid _ _ Hk). run.
    destruct (network _ _) as [rd | msg rd]; run; [|reflexivity].
    destruct (JS.get rd "status") as [st|] eqn:Hst; run; [|reflexivity].
    pose proof (get_some_not_nullish _ _ _ Hst) as Hnn.
    destruct (JS.strict_eq_str st "error"); run.
    { rewrite (get_not_nullish rd "message" Hnn). reflexivity. }
    rewrite (get_not_nullish rd "data" Hnn). run.
    unfold needs_validation, authMode_of.
    destruct (JS.truthy (opt_bool (preauthorize data))); cbn [andb];
      [|reflexivity].
    destruct (JS.strict_eq_str _ "pending") eqn:Hp; cbn [andb];
      [|reflexivity].
    run. rewrite (get_not_nullish rd "meta" Hnn). run.
    destruct (JS.truthy _); run; [|reflexivity].
    rewrite (get_not_nullish _ "flw_ref"
               (strict_eq_get_opt_not_nullish _ _ _ Hp)).
    reflexivity.
  - unfold chargeWithToken. run. destruct (network _ _); reflexivity.
  - unfold validateCharge. run. destruct (network _ _); reflexivity.
  - unfold getCardBIN. run. destruct (network _ _); reflexivity.
  - unfold verifyPayment. run. destruct (network _ _); reflexivity.
  - unfold voidPreauthorization. run. destruct (network _ _); reflexivity.
Qed.

(** *** The status check *)

Lemma check_status_nullish rd w :
  nullish rd = true -> exists e, check_status rd w = (JS.Throw e, w).
Proof.
  intros Hn. run. rewrite (get_nullish _ _ Hn). eexists. reflexivity.
Qed.

Lemma check_status_error rd w :
  JS.strict_eq_str (JS.get_opt rd "status") "error" = true ->
  check_status rd w =
  (JS.Throw (ApiError httpStatus.BAD_REQUEST (JS.get_opt rd "message")), w).
Proof.
  intros He. pose proof (strict_eq_get_opt_not_nullish _ _ _ He) as Hnn.
  run. rewrite !(get_not_nullish rd _ Hnn), He. reflexivity.
Qed.

Lemma check_status_pass rd w :
  nullish rd = false ->
  JS.strict_eq_str (JS.get_opt rd "status") "error" = false ->
  check_status rd w = (JS.Ok rd, w).
Proof.
  intros Hnn He. run. rewrite !(get_not_nullish rd _ Hnn), He. reflexivity.
Qed.

(** Whatever the status check does, it leaves the world alone. *)
Lemma check_status_world rd w : snd (check_status rd w) = w.
Proof.
  destruct (nullish rd) eqn:Hn.
  - destruct (check_status_nullish rd w Hn) as [e ->]. reflexivity.
  - destruct (JS.strict_eq_str (JS.get_opt rd "status") "error") eqn:He.
    + rewrite check_status_error by assumption. reflexivity.
    + rewrite check_status_pass by assumption. reflexivity.
Qed.

(** *** The catch clause *)

Lemma report_throws label generic error w :
  fst (report label generic error w) =
    JS.Throw (ApiError httpStatus.BAD_REQUEST (reported error generic))
  /\ requests (snd (report label generic error w)) = requests w.
Proof. split; reflexivity. Qed.

(** Handling the settled promise makes no further request. *)
Lemma handled_requests c o w :
  requests
    (snd (try_catch (settled c o)
            (report (failure_label c) (generic_message c)) w))
  = requests w.
Proof.
  destruct o as [rd | msg rd]; [|reflexivity].
  destruct c; cbn [settled];
    try (pose proof (check_status_world rd w) as Hw;
         unfold try_catch;
         destruct (check_status rd w) as [[r|e] w']; simpl in Hw; subst w';
         reflexivity).
  pose proof (check_status_world rd w) as Hw.
  unfold try_catch, bind.
  destruct (check_status rd w) as [[r|e] w']; simpl in Hw; subst w';
    [|reflexivity].
  destruct (needs_validation data rd); reflexivity.
Qed.

Lemma invoke_requests this c w :
  match c with ChargeCard _ => valid_key this | _ => True end ->
  requests (snd (invoke network this c w)) =
  (requests w ++ [request_of this (env w) c])%list.
Proof.
  intros Hk. rewrite (invoke_run this c w Hk), handled_requests. reflexivity.
Qed.

(** Under a key node-forge refuses, [chargeCard] fails before any request. *)
Lemma chargeCard_invalid_key this data w :
  ~ valid_key this ->
  (exists e, fst (chargeCard network this data w) = JS.Throw e)
  /\ requests (snd (chargeCard network this data w)) = requests w.
Proof.
  intros Hk. unfold chargeCard. run.
  destruct (encryptCardData_invalid this (cardData (env w) data) Hk)
    as [e ->].
  split; [eexists|]; reflexivity.
Qed.

End WithGateway.
End ServiceFacts.

(** ** The claims *)

Import FlutterwaveApiService Run ServiceFacts Fixture Reading.

(** *** C1 *)

(** What [chargeCard] puts in the [authorization] object of the payload. *)
Lemma authorization_payload_omits a k :
  In k ["pin"; "otp"; "city"; "address"; "state"; "country"; "zipcode"] ->
  JS.truthy (authorization_field a k) = false ->
  JS.get (authorization_payload a) k = Some JS.Undefined.
Proof.
  intros Hin Hf. unfold authorization_payload.
  simpl in Hin.
  repeat (destruct Hin as [<- | Hin]; [
    cbn [authorization_field String.eqb Ascii.eqb Bool.eqb] in Hf;
    rewrite Hf, ?andb_false_r;
    repeat match goal with
           | |- context [if ?c then _ else _] => destruct c
           end;
    reflexivity |]).
  contradiction.
Qed.

(** Data that breaks the invariant of its mode lacks a field. *)
Lemma inconsistent_lacks_field a :
  inconsistent a = true ->
  exists k,
    In k ["pin"; "otp"; "city"; "address"; "state"; "country"; "zipcode"]
    /\ JS.truthy (authorization_field a k) = false.
Proof.
  unfold inconsistent. intros H.
  destruct (mode a); try discriminate H.
  - exists "pin". split; [simpl; auto|].
    apply negb_true_iff in H. exact H.
  - exists "otp". split; [simpl; auto|].
    apply negb_true_iff in H. exact H.
  - apply negb_true_iff in H.
    destruct (JS.truthy (opt_str (address a))) eqn:E1;
      [|exists "address"; split; [simpl; auto 10 | exact E1]].
    destruct (JS.truthy (opt_str (city a))) eqn:E2;
      [|exists "city"; split; [simpl; auto 10 | exact E2]].
    destruct (JS.truthy (opt_str (state a))) eqn:E3;
      [|exists "state"; split; [simpl; auto 10 | exact E3]].
    destruct (JS.truthy (opt_str (country a))) eqn:E4;
      [|exists "country"; split; [simpl; auto 10 | exact E4]].
    exists "zipcode". split; [simpl; auto 10 | exact H].
Qed.

Lemma cardData_authorization e data a :
  authorization data = Some a ->
  JS.get (cardData e data) "authorization" = Some (authorization_payload a).
Proof. intros H. unfold cardData. rewrite H. reflexivity. Qed.

(** C1, as the code has it: [chargeCard] does not validate the authorization
    data. When the data breaks the invariant of its mode (PIN without a pin,
    OTP without an otp, AVS without an address field) and the key is valid,
    the absent field is left out of the [authorization] object of the
    encrypted payload, exactly one request goes to the gateway, and the
    result is the handling of the gateway's answer. *)
Theorem C1_no_validation_of_authorization :
  forall (des : Forge.TripleDES)
         (network : list request -> request -> axios_outcome)
         (this : t) (data : CardPaymentData) (a : Authorization) (w : world),
    valid_key this ->
    authorization data = Some a ->
    inconsistent a = true ->
    let req := request_of this (env w) (ChargeCard data) in
    chargeCard network this data w =
      try_catch (settled (ChargeCard data) (network (requests w) req))
        (report "Flutterwave card charge failed:" "Card charge failed")
        (sent w req)
    /\ requests (snd (chargeCard network this data w))
       = (requests w ++ [req])%list
    /\ JS.get (cardData (env w) data) "authorization"
       = Some (authorization_payload a)
    /\ (exists k,
           In k ["pin"; "otp"; "city"; "address"; "state"; "country";
                 "zipcode"]
           /\ JS.truthy (authorization_field a k) = false)
    /\ (forall k,
           In k ["pin"; "otp"; "city"; "address"; "state"; "country";
                 "zipcode"] ->
           JS.truthy (authorization_field a k) = false ->
           JS.get (authorization_payload a) k = Some JS.Undefined).
Proof.
  intros des network this data a w Hk Ha Hbad req.
  split; [exact (invoke_run network this (ChargeCard data) w Hk)|].
  split; [exact (invoke_requests network this (ChargeCard data) w Hk)|].
  split; [exact (cardData_authorization (env w) data a Ha)|].
  split; [exact (inconsistent_lacks_field a Hbad)|].
  exact (authorization_payload_omits a).
Qed.

Lemma C1_witness :
  requests
    (snd (chargeCard (des := MaskCipher.cipher) (answer body_successful)
            service0 (charge None None (Some pin_mode_without_pin)) world0))
  = [request_of (des := MaskCipher.cipher) service0 env0
       (ChargeCard (charge None None (Some pin_mode_without_pin)))].
Proof.
  apply (C1_no_validation_of_authorization MaskCipher.cipher
           (answer body_successful) service0
           (charge None None (Some pin_mode_without_pin))
           pin_mode_without_pin world0);
    reflexivity.
Defined.

(** C1 as stated fails: with PIN mode and no pin, the charge is sent to the
    gateway and, when the gateway accepts it, succeeds. *)
Lemma C1_counterexample :
  let data := charge None None (Some pin_mode_without_pin) in
  let r := chargeCard (des := MaskCipher.cipher) (answer body_successful)
             service0 data world0 in
  inconsistent pin_mode_without_pin = true
  /\ fst r = JS.Ok body_successful
  /\ length (requests (snd r)) = 1
  /\ ~ (exists e, fst r = JS.Throw e /\ requests (snd r) = requests world0).
Proof.
  cbv zeta. split; [reflexivity|].
  split; [vm_compute; reflexivity|].
  split; [vm_compute; reflexivity|].
  intros [e [He _]]. vm_compute in He. discriminate He.
Qed.

(** *** C2 *)

(** Under [needs_validation] the handling of a resolved charge gives the
    flagged body; otherwise, when the status check passes, the body itself. *)
Lemma chargeCard_resolved
    {des : Forge.TripleDES}
    (network : list request -> request -> axios_outcome) this data w body :
  valid_key this ->
  network (requests w) (request_of this (env w) (ChargeCard data))
    = Resolves body ->
  nullish body = false ->
  JS.strict_eq_str (JS.get_opt body "status") "error" = false ->
  fst (chargeCard network this data w) =
    JS.Ok (if needs_validation data body then flagged body else body)
  /\ (needs_validation data body = false ->
      chargeCard network this data w =
        (JS.Ok body, sent w (request_of this (env w) (ChargeCard data)))).
Proof.
  intros Hk Hnet Hnn He.
  rewrite (invoke_run network this (ChargeCard data) w Hk
            : chargeCard _ _ _ _ = _).
  rewrite Hnet. cbn [settled]. unfold try_catch, bind.
  rewrite (check_status_pass _ _ Hnn He).
  destruct (needs_validation data body); split;
    try reflexivity; discriminate.
Qed.

Lemma flagged_fields body :
  nullish body = false ->
  JS.get (flagged body) "requires_validation" = Some (JS.Bool true)
  /\ JS.get (flagged body) "validation_mode" = Some (authMode_of body)
  /\ JS.get (flagged body) "flw_ref"
     = Some (JS.get_opt (JS.get_opt body "data") "flw_ref")
  /\ (forall k,
         k <> "requires_validation" -> k <> "validation_mode" ->
         k <> "flw_ref" -> JS.get (flagged body) k = JS.get body k).
Proof.
  intros Hnn. unfold flagged, JS.get.
  repeat split.
  - rewrite lookup_set_other, lookup_set_other, lookup_set_same
      by discriminate. reflexivity.
  - rewrite lookup_set_other, lookup_set_same by discriminate. reflexivity.
  - rewrite lookup_set_same. reflexivity.
  - intros k H1 H2 H3.
    rewrite !lookup_set_other by congruence.
    destruct body; try reflexivity; discriminate Hnn.
Qed.

(** C2, as the code has it: when the gateway's body has a top-level status
    other than "error", an inner [data.status] equal to "pending" and a
    truthy [meta.authorization.mode], and the request had [preauthorize]
    true, [chargeCard] returns the gateway's body with three properties set:
    [requires_validation] is [true], [validation_mode] is the hinted mode as
    the gateway sent it, and [flw_ref] is the body's [data.flw_ref],
    unchanged. Every other property of the body is kept. *)
Theorem C2_pending_preauthorized_charge_is_flagged :
  forall (des : Forge.TripleDES)
         (network : list request -> request -> axios_outcome)
         (this : t) (data : CardPaymentData) (w : world) (body : JS.value),
    valid_key this ->
    network (requests w) (request_of this (env w) (ChargeCard data))
      = Resolves body ->
    JS.strict_eq_str (JS.get_opt body "status") "error" = false ->
    JS.strict_eq_str (JS.get_opt (JS.get_opt body "data") "status") "pending"
      = true ->
    JS.truthy (authMode_of body) = true ->
    preauthorize data = Some true ->
    exists result,
      fst (chargeCard network this data w) = JS.Ok result
      /\ JS.get result "requires_validation" = Some (JS.Bool true)
      /\ JS.get result "validation_mode" = Some (authMode_of body)
      /\ JS.get result "flw_ref"
         = Some (JS.get_opt (JS.get_opt body "data") "flw_ref")
      /\ (forall k,
             k <> "requires_validation" -> k <> "validation_mode" ->
             k <> "flw_ref" -> JS.get result k = JS.get body k).
Proof.
  intros des network this data w body Hk Hnet He Hp Hm Hpre.
  assert (nullish body = false) as Hnn.
  { destruct body; try reflexivity; discriminate Hp. }
  assert (needs_validation data body = true) as Hv.
  { unfold needs_validation. rewrite Hpre, Hp, Hm. reflexivity. }
  exists (flagged body). split.
  - destruct (chargeCard_resolved network this data w body Hk Hnet Hnn He)
      as [Hr _].
    rewrite Hv in Hr. exact Hr.
  - exact (flagged_fields body Hnn).
Qed.

Lemma C2_witness :
  exists result,
    fst (chargeCard (des := MaskCipher.cipher) (answer body_pending_otp)
           service0 (charge (Some true) None None) world0) = JS.Ok result
    /\ JS.get result "requires_validation" = Some (JS.Bool true)
    /\ JS.get result "validation_mode" = Some (JS.Str "otp")
    /\ JS.get result "flw_ref" = Some (JS.Str "FLW123")
    /\ (forall k,
           k <> "requires_validation" -> k <> "validation_mode" ->
           k <> "flw_ref" -> JS.get result k = JS.get body_pending_otp k).
Proof.
  apply (C2_pending_preauthorized_charge_is_flagged MaskCipher.cipher
           (answer body_pending_otp) service0
           (charge (Some true) None None) world0 body_pending_otp);
    reflexivity.
Defined.

(** C2 as stated fails. A pending body with a hint whose top-level status is
    "error" is rejected, not flagged; a pending body whose hint is the empty
    string is returned without a flag. And on the specification's own example
    the result carries the gateway's mode "otp": the action VALIDATE_OTP
    occurs nowhere in it, and its [data] has no [nextAction]. *)
Lemma C2_counterexample :
  let data := charge (Some true) None None in
  let rejected := chargeCard (des := MaskCipher.cipher)
                    (answer body_error_pending_otp) service0 data world0 in
  let unflagged := chargeCard (des := MaskCipher.cipher)
                     (answer body_pending_empty_hint) service0 data world0 in
  let r := chargeCard (des := MaskCipher.cipher) (answer body_pending_otp)
             service0 data world0 in
  fst rejected
    = JS.Throw (ApiError httpStatus.BAD_REQUEST (JS.Str "Declined"))
  /\ fst unflagged = JS.Ok body_pending_empty_hint
  /\ (exists result,
         fst r = JS.Ok result
         /\ JS.get result "validation_mode" = Some (JS.Str "otp")
         /\ mentions (PaymentAction.value PaymentAction.VALIDATE_OTP) result
            = false
         /\ JS.get_opt (JS.get_opt result "data") "nextAction"
            = JS.Undefined).
Proof.
  cbv zeta. split; [vm_compute; reflexivity|].
  split; [vm_compute; reflexivity|].
  eexists. split; [vm_compute; reflexivity|].
  repeat split; vm_compute; reflexivity.
Qed.

(** *** C3 *)

(** C3, as the code has it: when the gateway's body has a top-level status
    other than "error" and an inner [data.status] equal to "successful",
    [chargeCard] resolves with the gateway's body unchanged; nothing else
    happens in the world but the one request. No canonical status or action
    is attached. *)
Theorem C3_successful_body_is_returned_unchanged :
  forall (des : Forge.TripleDES)
         (network : list request -> request -> axios_outcome)
         (this : t) (data : CardPaymentData) (w : world) (body : JS.value),
    valid_key this ->
    network (requests w) (request_of this (env w) (ChargeCard data))
      = Resolves body ->
    JS.strict_eq_str (JS.get_opt body "status") "error" = false ->
    JS.strict_eq_str (JS.get_opt (JS.get_opt body "data") "status")
      "successful" = true ->
    chargeCard network this data w =
      (JS.Ok body, sent w (request_of this (env w) (ChargeCard data))).
Proof.
  intros des network this data w body Hk Hnet He Hs.
  assert (nullish body = false) as Hnn.
  { destruct body; try reflexivity; discriminate Hs. }
  apply (chargeCard_resolved network this data w body Hk Hnet Hnn He).
  unfold needs_validation.
  destruct (JS.get_opt (JS.get_opt body "data") "status");
    try discriminate Hs.
  simpl in Hs. apply String.eqb_eq in Hs. subst s.
  rewrite andb_false_r. reflexivity.
Qed.

Lemma C3_witness :
  chargeCard (des := MaskCipher.cipher) (answer body_successful) service0
    (charge (Some true) None None) world0
  = (JS.Ok body_successful,
     sent world0
       (request_of (des := MaskCipher.cipher) service0 env0
          (ChargeCard (charge (Some true) None None)))).
Proof.
  apply (C3_successful_body_is_returned_unchanged MaskCipher.cipher
           (answer body_successful) service0
           (charge (Some true) None None) world0 body_successful);
    reflexivity.
Defined.

(** C3 as stated fails: on the specification's example the result is the
    gateway's body; the action COMPLETE occurs nowhere in it, its [data] has
    no [nextAction], and its [status] is the gateway's string, not the
    success flag of a [CardChargeResponse]. *)
Lemma C3_counterexample :
  let r := chargeCard (des := MaskCipher.cipher) (answer body_successful)
             service0 (charge None None None) world0 in
  fst r = JS.Ok body_successful
  /\ mentions (PaymentAction.value PaymentAction.COMPLETE) body_successful
     = false
  /\ JS.get_opt (JS.get_opt body_successful "data") "nextAction"
     = JS.Undefined
  /\ JS.get_opt body_successful "status" <> JS.Bool true.
Proof.
  cbv zeta. split; [vm_compute; reflexivity|].
  repeat split; try (vm_compute; reflexivity). discriminate.
Qed.

(** *** C4 *)

(** C4, as the code has it: when the gateway's body is not [null] and its
    top-level status is not "error", [chargeCard] does not fail, whatever
    the inner status is. It returns the body unchanged, or the flagged body
    in the pending case of a preauthorized charge; it does not classify an
    unknown status as FAILED. *)
Theorem C4_other_statuses_pass_through :
  forall (des : Forge.TripleDES)
         (network : list request -> request -> axios_outcome)
         (this : t) (data : CardPaymentData) (w : world) (body : JS.value),
    valid_key this ->
    network (requests w) (request_of this (env w) (ChargeCard data))
      = Resolves body ->
    nullish body = false ->
    JS.strict_eq_str (JS.get_opt body "status") "error" = false ->
    fst (chargeCard network this data w) =
      JS.Ok (if needs_validation data body then flagged body else body)
    /\ (needs_validation data body = false ->
        chargeCard network this data w =
          (JS.Ok body, sent w (request_of this (env w) (ChargeCard data)))).
Proof.
  intros des network this data w body Hk Hnet Hnn He.
  exact (chargeCard_resolved network this data w body Hk Hnet Hnn He).
Qed.

Lemma C4_witness :
  fst (chargeCard (des := MaskCipher.cipher) (answer body_unknown) service0
         (charge (Some true) None None) world0)
  = JS.Ok body_unknown.
Proof.
  apply (C4_other_statuses_pass_through MaskCipher.cipher
           (answer body_unknown) service0 (charge (Some true) None None)
           world0 body_unknown);
    reflexivity.
Defined.

(** C4 as stated fails: a body whose inner status is none of "successful"
    and "pending", under a top-level status that is not "error", makes
    [chargeCard] resolve with that body; no error is raised. *)
Lemma C4_counterexample :
  let r := chargeCard (des := MaskCipher.cipher) (answer body_unknown)
             service0 (charge (Some true) None None) world0 in
  JS.strict_eq_str (JS.get_opt body_unknown "status") "error" = false
  /\ JS.strict_eq_str (JS.get_opt (JS.get_opt body_unknown "data") "status")
       "successful" = false
  /\ JS.strict_eq_str (JS.get_opt (JS.get_opt body_unknown "data") "status")
       "pending" = false
  /\ fst r = JS.Ok body_unknown
  /\ ~ (exists e, fst r = JS.Throw e).
Proof.
  cbv zeta. repeat split; try (vm_compute; reflexivity).
  intros [e He]. vm_compute in He. discriminate He.
Qed.

(** *** C5 *)

(** The message of the [ApiError] that reports a gateway body. *)
Lemma reported_gateway_message (e : JS.exn) generic s :
  JS.get_opt (JS.response_data e) "message" = JS.Str s -> s <> "" ->
  JS.Error_message (reported e generic) = s.
Proof.
  intros Hm Hs. unfold reported. rewrite Hm.
  apply String.eqb_neq in Hs.
  unfold JS.or_else. simpl. repeat (rewrite Hs; simpl). reflexivity.
Qed.

Lemma reported_thrown_message v generic s :
  v = JS.Str s -> s <> "" ->
  JS.Error_message (reported (ApiError httpStatus.BAD_REQUEST v) generic) = s.
Proof.
  intros -> Hs. apply String.eqb_neq in Hs.
  unfold reported, JS.or_else. simpl. repeat (rewrite Hs; simpl).
  reflexivity.
Qed.

Lemma reported_thrown_without_message generic :
  JS.Error_message
    (reported (ApiError httpStatus.BAD_REQUEST JS.Undefined) generic)
  = generic.
Proof. reflexivity. Qed.

(** C5: for each of the six public operations, when the body the gateway
    answers the operation's request with (in a resolved response, or in the
    response of a rejected one) has the top-level status "error", the
    operation fails with an [ApiError] of status 400 and never returns a
    value. The error's message is the gateway's message when the body holds
    one (a string that is not empty); when a resolved body holds no message,
    it is the operation's generic message. *)
Theorem C5_gateway_error_is_reported :
  forall (des : Forge.TripleDES)
         (network : list request -> request -> axios_outcome)
         (this : t) (c : call) (w : world) (body : JS.value)
         (o : axios_outcome),
    match c with ChargeCard _ => valid_key this | _ => True end ->
    network (requests w) (request_of this (env w) c) = o ->
    o = Resolves body \/ (exists m, o = Rejects m body) ->
    JS.strict_eq_str (JS.get_opt body "status") "error" = true ->
    exists msg,
      fst (invoke network this c w)
        = JS.Throw (JS.mk_exn (JS.ApiErrorKind httpStatus.BAD_REQUEST) msg
                      JS.Undefined)
      /\ (forall s, JS.get_opt body "message" = JS.Str s -> s <> "" ->
                    msg = s)
      /\ (o = Resolves body -> JS.get_opt body "message" = JS.Undefined ->
          msg = generic_message c).
Proof.
  intros des network this c w body o Hk Hnet Ho He.
  rewrite (invoke_run network this c w Hk), Hnet.
  destruct Ho as [-> | [m ->]].
  - assert (settled c (Resolves body)
              (sent w (request_of this (env w) c))
            = (JS.Throw (ApiError httpStatus.BAD_REQUEST
                           (JS.get_opt body "message")),
               sent w (request_of this (env w) c))) as Hs.
    { destruct c; cbn [settled]; unfold bind;
        rewrite (check_status_error _ _ He); reflexivity. }
    unfold try_catch. rewrite Hs.
    eexists. split; [apply report_throws|]. split.
    + intros s Hm Hne. apply reported_thrown_message; assumption.
    + intros _ Hm. rewrite Hm.
      apply reported_thrown_without_message.
  - cbn [settled]. unfold try_catch, throw.
    eexists. split; [apply report_throws|]. split.
    + intros s Hm Hne. apply reported_gateway_message; assumption.
    + intros Habs. discriminate Habs.
Qed.

Lemma C5_witness :
  exists msg,
    fst (voidPreauthorization (answer body_error) service0 "4271" world0)
      = JS.Throw (JS.mk_exn (JS.ApiErrorKind httpStatus.BAD_REQUEST) msg
                    JS.Undefined)
    /\ (forall s, JS.Str "Invalid card" = JS.Str s -> s <> "" -> msg = s)
    /\ (Resolves body_error = Resolves body_error ->
        JS.Str "Invalid card" = JS.Undefined ->
        msg = "Void preauthorization failed").
Proof.
  apply (C5_gateway_error_is_reported MaskCipher.cipher (answer body_error)
           service0 (VoidPreauthorization "4271") world0 body_error
           (Resolves body_error));
    [exact I | reflexivity | left; reflexivity | reflexivity].
Defined.

(** *** C6 *)

(** C6, as the code has it: [validateCharge] makes one request and then
    either fails with an [ApiError] of status 400 (the promise rejected, the
    body is [null], or its top-level status is "error") or returns the
    gateway's body unchanged. It looks at nothing but the top-level status,
    so a body that asks for another validation is returned like any other. *)
Theorem C6_validateCharge_passes_body_through :
  forall (des : Forge.TripleDES)
         (network : list request -> request -> axios_outcome)
         (this : t) (flw_ref otp : string) (type : option charge_type)
         (w : world),
    let req := request_of this (env w) (ValidateCharge flw_ref otp type) in
    let r := validateCharge network this flw_ref otp type w in
    requests (snd r) = (requests w ++ [req])%list
    /\ match network (requests w) req with
       | Resolves body =>
           if nullish body
              || JS.strict_eq_str (JS.get_opt body "status") "error"
           then exists msg,
               fst r = JS.Throw
                         (JS.mk_exn (JS.ApiErrorKind httpStatus.BAD_REQUEST)
                            msg JS.Undefined)
           else r = (JS.Ok body, sent w req)
       | Rejects _ _ =>
           exists msg,
             fst r = JS.Throw
                       (JS.mk_exn (JS.ApiErrorKind httpStatus.BAD_REQUEST)
                          msg JS.Undefined)
       end.
Proof.
  intros des network this flw_ref otp type w req r.
  split.
  - exact (invoke_requests network this (ValidateCharge flw_ref otp type) w I).
  - subst r.
    rewrite (invoke_run network this (ValidateCharge flw_ref otp type) w I
              : validateCharge _ _ _ _ _ _ = _).
    fold req. destruct (network (requests w) req) as [body | m rd].
    + cbn [settled]. unfold try_catch.
      destruct (nullish body) eqn:Hn; cbn [orb].
      * destruct (check_status_nullish body (sent w req) Hn) as [e ->].
        eexists. apply report_throws.
      * destruct (JS.strict_eq_str (JS.get_opt body "status") "error") eqn:He.
        -- rewrite (check_status_error _ _ He). eexists. apply report_throws.
        -- rewrite (check_status_pass _ _ Hn He). reflexivity.
    + cbn [settled]. unfold try_catch, throw. eexists. apply report_throws.
Qed.

(** C6 as stated fails: when the gateway answers a validation with a pending
    body that hints at another validation, [validateCharge] returns that
    body; it does not fail, and the message of the claim is not produced. *)
Lemma C6_counterexample :
  let r := validateCharge (answer body_pending_otp) service0 "FLW123" "12345"
             None world0 in
  fst r = JS.Ok body_pending_otp
  /\ ~ (exists e, fst r = JS.Throw e
                  /\ JS.message e = "unexpected re-validation requested").
Proof.
  cbv zeta. split; [vm_compute; reflexivity|].
  intros [e [He _]]. vm_compute in He. discriminate He.
Qed.

(** *** C7 *)

(** The envelope holds the two constants of [cardData], whatever the input. *)
Lemma envelope_fixed ct e data :
  envelope ct (cardData e data) =
  JS.Obj [("client", JS.Str ct);
          ("client_ip", JS.Str "127.0.0.1");
          ("device_fingerprint", JS.Str "device_fingerprint");
          ("alg", JS.Str "3DES-24")].
Proof.
  unfold envelope, cardData. destruct (authorization data); reflexivity.
Qed.

(** C7, as the code has it: under a valid key the encoder's output is the
    base64 encoding of the 3DES-ECB encryption (PKCS#7 padding, no use of an
    initialization vector) of the JSON serialization of the payload, each
    character of the serialization taken as one byte. These bytes are the
    UTF-8 encoding exactly when the serialization has 7-bit characters only.
    [chargeCard] sends the output as [client] of the fixed envelope
    [{client, client_ip, device_fingerprint, alg}]. *)
Theorem C7_encoder_output_and_envelope :
  forall (des : Forge.TripleDES) (this : t),
    valid_key this ->
    (forall payload,
        encryptCardData this payload =
        JS.Ok (Forge.encode64
                 (Forge.ecb_encrypt (key_bytes this)
                    (Forge.createBuffer (JSON.stringify payload)))))
    /\ (forall payload text,
           JSON.stringify payload = Some text ->
           (Forge.createBuffer (JSON.stringify payload)
            = Forge.encodeUtf8 text
            <-> Forge.is_ascii text))
    /\ (forall (network : list request -> request -> axios_outcome)
               (data : CardPaymentData) (w : world),
           requests (snd (chargeCard network this data w)) =
           (requests w ++
              [{| method := POST;
                  url := baseUrl this ++ "/charges?type=card";
                  body :=
                    JS.Obj
                      [("client",
                        JS.Str
                          (Forge.encode64
                             (Forge.ecb_encrypt (key_bytes this)
                                (Forge.createBuffer
                                   (JSON.stringify
                                      (cardData (env w) data))))));
                       ("client_ip", JS.Str "127.0.0.1");
                       ("device_fingerprint", JS.Str "device_fingerprint");
                       ("alg", JS.Str "3DES-24")];
                  request_headers := headers this |}])%list).
Proof.
  intros des this Hk. split; [|split].
  - intros payload. exact (encryptCardData_valid this payload Hk).
  - intros payload text Ht. rewrite Ht.
    apply ForgeFacts.createBuffer_utf8_iff.
  - intros network data w.
    rewrite (invoke_requests network this (ChargeCard data) w Hk
              : requests (snd (chargeCard _ _ _ _)) = _).
    cbn [request_of]. rewrite envelope_fixed. reflexivity.
Qed.

Lemma C7_witness :
  encryptCardData (des := MaskCipher.cipher) service0 body_error =
  JS.Ok (Forge.encode64
           (Forge.ecb_encrypt (des := MaskCipher.cipher) (key_bytes service0)
              (Forge.createBuffer (JSON.stringify body_error)))).
Proof.
  apply (C7_encoder_output_and_envelope MaskCipher.cipher service0).
  reflexivity.
Defined.

(** C7 as stated fails: for a payload with a character above U+007F the
    bytes that are encrypted are not the UTF-8 encoding of the serialization,
    and the encoder's output is not the encoding of the UTF-8 bytes. *)
Lemma C7_counterexample :
  let payload := cardData env0 (charge None (Some accented_name) None) in
  exists text,
    JSON.stringify payload = Some text
    /\ Forge.createBuffer (Some text) <> Forge.encodeUtf8 text
    /\ encryptCardData (des := MaskCipher.cipher) service0 payload
       <> JS.Ok (Forge.encode64
                   (Forge.ecb_encrypt (des := MaskCipher.cipher)
                      (key_bytes service0)
                      (Forge.encodeUtf8 text))).
Proof.
  cbv zeta. eexists. split; [vm_compute; reflexivity|]. split.
  - intros H. apply (f_equal (@length ascii)) in H. vm_compute in H.
    discriminate H.
  - intros H.
    apply (f_equal (fun r => match r with
                             | JS.Ok s => s
                             | JS.Throw _ => ""
                             end)) in H.
    apply String.eqb_eq in H. vm_compute in H. discriminate H.
Qed.

(** *** C8 *)

(** C8, as the code has it: under a valid key, decrypting the base64-decoded
    output of [encryptCardData] with the same key and cipher gives back the
    JSON serialization of the payload, one byte per character; this is the
    UTF-8 serialization exactly when its characters are 7-bit. *)
Theorem C8_decoding_recovers_serialization :
  forall (des : Forge.TripleDES) (this : t) (payload : JS.value),
    Forge.lawful des ->
    valid_key this ->
    exists ct,
      encryptCardData this payload = JS.Ok ct
      /\ Forge.ecb_decrypt (key_bytes this) (Forge.decode64 ct)
         = Forge.createBuffer (JSON.stringify payload)
      /\ (forall text,
             JSON.stringify payload = Some text ->
             (Forge.ecb_decrypt (key_bytes this) (Forge.decode64 ct)
              = Forge.encodeUtf8 text
              <-> Forge.is_ascii text)).
Proof.
  intros des this payload Hdes Hk.
  exists (ciphertext this payload).
  assert (Forge.ecb_decrypt (key_bytes this)
            (Forge.decode64 (ciphertext this payload))
          = Forge.createBuffer (JSON.stringify payload)) as Hrt.
  { unfold ciphertext.
    rewrite ForgeFacts.decode64_encode64.
    apply ForgeFacts.ecb_decrypt_encrypt; assumption. }
  split; [exact (encryptCardData_valid this payload Hk)|].
  split; [exact Hrt|].
  intros text Ht. rewrite Hrt, Ht.
  apply ForgeFacts.createBuffer_utf8_iff.
Qed.

Lemma C8_witness :
  exists ct,
    encryptCardData (des := MaskCipher.cipher) service0 body_error = JS.Ok ct
    /\ Forge.ecb_decrypt (des := MaskCipher.cipher) (key_bytes service0)
         (Forge.decode64 ct)
       = Forge.createBuffer (JSON.stringify body_error)
    /\ (forall text,
           JSON.stringify body_error = Some text ->
           (Forge.ecb_decrypt (des := MaskCipher.cipher) (key_bytes service0)
              (Forge.decode64 ct)
            = Forge.encodeUtf8 text
            <-> Forge.is_ascii text)).
Proof.
  apply (C8_decoding_recovers_serialization MaskCipher.cipher service0
           body_error MaskCipherFacts.cipher_lawful).
  reflexivity.
Defined.

(** C8 as stated fails: for a payload with a character above U+007F,
    decoding the encoder's output does not give the UTF-8 serialization. *)
Lemma C8_counterexample :
  let payload := cardData env0 (charge None (Some accented_name) None) in
  exists text ct,
    JSON.stringify payload = Some text
    /\ encryptCardData (des := MaskCipher.cipher) service0 payload = JS.Ok ct
    /\ Forge.ecb_decrypt (des := MaskCipher.cipher) (key_bytes service0)
         (Forge.decode64 ct)
       <> Forge.encodeUtf8 text.
Proof.
  cbv zeta. eexists. eexists.
  split; [vm_compute; reflexivity|].
  split; [vm_compute; reflexivity|].
  intros H. apply (f_equal (@length ascii)) in H. vm_compute in H.
  discriminate H.
Qed.

(** *** C9 *)

(** C9: the encoding has no source of variation but the key and the
    serialized payload. The call sequence of [encryptCardData] (start with an
    initialization vector, update with the plaintext, finish, read the
    output) gives the same bytes for any two initialization vectors and any
    two cipher objects under the key, whatever input those still buffer and
    whatever output they produced before; every block is encrypted on its
    own, so nothing is chained from one block to the next. The string
    [encryptCardData] returns is the base64 encoding of these bytes, so two
    evaluations on the same payload with the same key give the same
    ciphertext; and two evaluations of [chargeCard] on the same data, in
    worlds with the same environment but any histories and any gateways, put
    the very same request, ciphertext included, on the wire. *)
Theorem C9_encoding_is_deterministic :
  forall (des : Forge.TripleDES) (this1 this2 : t) (p1 p2 : JS.value)
         (iv1 iv2 : string) (c1 c2 : Forge.BlockCipher)
         (network1 network2 : list request -> request -> axios_outcome)
         (data : CardPaymentData) (w1 w2 : world),
    encryptionKey (config this1) = encryptionKey (config this2) ->
    JSON.stringify p1 = JSON.stringify p2 ->
    valid_key this1 ->
    Forge.key c1 = key_bytes this1 ->
    Forge.key c2 = key_bytes this1 ->
    env w1 = env w2 ->
    let run iv c plaintext :=
      Forge.getBytes (Forge.finish (Forge.update plaintext (Forge.start iv c)))
    in
    run iv1 c1 (Forge.createBuffer (JSON.stringify p1))
    = run iv2 c2 (Forge.createBuffer (JSON.stringify p2))
    /\ (forall b rest,
           length b = 8 ->
           run iv1 c1 (b ++ rest)%list
           = (Forge.encrypt_block (key_bytes this1) b ++ run iv2 c2 rest)%list)
    /\ encryptCardData this1 p1
       = JS.Ok (Forge.encode64
                  (run iv1 c1 (Forge.createBuffer (JSON.stringify p1))))
    /\ encryptCardData this2 p2
       = JS.Ok (Forge.encode64
                  (run iv2 c2 (Forge.createBuffer (JSON.stringify p2))))
    /\ encryptCardData this1 p1 = encryptCardData this2 p2
    /\ (exists req,
           requests (snd (chargeCard network1 this1 data w1))
           = (requests w1 ++ [req])%list
           /\ requests (snd (chargeCard network2 this1 data w2))
              = (requests w2 ++ [req])%list).
Proof.
  intros des this1 this2 p1 p2 iv1 iv2 c1 c2 network1 network2 data w1 w2
    Hkey Hp Hk Hc1 Hc2 He run.
  assert (valid_key this2) as Hk2.
  { unfold valid_key, key_bytes in *. rewrite <- Hkey. exact Hk. }
  assert (key_bytes this2 = key_bytes this1) as Hkb.
  { unfold key_bytes. rewrite Hkey. reflexivity. }
  assert (forall plaintext,
             run iv1 c1 plaintext
             = Forge.ecb_encrypt (key_bytes this1) plaintext) as Hrun1.
  { intros plaintext. subst run. cbv beta.
    rewrite ForgeFacts.cipher_run_is_ecb, Hc1. reflexivity. }
  assert (forall plaintext,
             run iv2 c2 plaintext
             = Forge.ecb_encrypt (key_bytes this1) plaintext) as Hrun2.
  { intros plaintext. subst run. cbv beta.
    rewrite ForgeFacts.cipher_run_is_ecb, Hc2. reflexivity. }
  assert (encryptCardData this1 p1
          = JS.Ok (Forge.encode64
                     (run iv1 c1 (Forge.createBuffer (JSON.stringify p1)))))
    as H1.
  { rewrite Hrun1. exact (encryptCardData_valid this1 p1 Hk). }
  assert (encryptCardData this2 p2
          = JS.Ok (Forge.encode64
                     (run iv2 c2 (Forge.createBuffer (JSON.stringify p2)))))
    as H2.
  { rewrite Hrun2, <- Hkb. exact (encryptCardData_valid this2 p2 Hk2). }
  split; [rewrite Hrun1, Hrun2, Hp; reflexivity|].
  split.
  { intros b rest Hb. rewrite Hrun1, Hrun2.
    apply ForgeFacts.ecb_first_block, Hb. }
  split; [exact H1|]. split; [exact H2|].
  split; [rewrite H1, H2, Hrun1, Hrun2, Hp; reflexivity|].
  exists (request_of this1 (env w1) (ChargeCard data)). split.
  - exact (invoke_requests network1 this1 (ChargeCard data) w1 Hk).
  - rewrite He.
    exact (invoke_requests network2 this1 (ChargeCard data) w2 Hk).
Qed.

Lemma C9_witness :
  Forge.getBytes
    (Forge.finish (des := MaskCipher.cipher)
       (Forge.update (des := MaskCipher.cipher)
          (Forge.createBuffer (JSON.stringify body_successful))
          (Forge.start "" Cases.fresh_cipher)))
  = Forge.getBytes
      (Forge.finish (des := MaskCipher.cipher)
         (Forge.update (des := MaskCipher.cipher)
          (Forge.createBuffer (JSON.stringify body_successful))
            (Forge.start "8 bytes." Cases.used_cipher))).
Proof.
  refine (proj1
    (C9_encoding_is_deterministic MaskCipher.cipher service0 service0
       body_successful body_successful "" "8 bytes." Cases.fresh_cipher
       Cases.used_cipher (answer body_successful) (answer body_error)
       (charge None None None) world0
       (sent world0
          (request_of (des := MaskCipher.cipher) service0 env0
             (GetCardBIN "418742")))
       _ _ _ _ _ _));
    reflexivity.
Defined.

(** *** C10 *)

(** C10: every request [chargeCard] makes has [client_ip] "127.0.0.1" and
    [device_fingerprint] "device_fingerprint" in its body, and so has the
    payload that is encrypted, whatever the caller's data; under a valid key
    there is exactly one such request. *)
Theorem C10_fixed_client_ip_and_fingerprint :
  forall (des : Forge.TripleDES)
         (network : list request -> request -> axios_outcome)
         (this : t) (data : CardPaymentData) (w : world),
    (exists made,
        requests (snd (chargeCard network this data w))
        = (requests w ++ made)%list
        /\ Forall
             (fun req =>
                JS.get (body req) "client_ip" = Some (JS.Str "127.0.0.1")
                /\ JS.get (body req) "device_fingerprint"
                   = Some (JS.Str "device_fingerprint"))
             made
        /\ (valid_key this -> length made = 1))
    /\ JS.get (cardData (env w) data) "client_ip"
       = Some (JS.Str "127.0.0.1")
    /\ JS.get (cardData (env w) data) "device_fingerprint"
       = Some (JS.Str "device_fingerprint").
Proof.
  intros des network this data w. split.
  - destruct (Nat.eq_dec (length (key_bytes this)) 24) as [Hk | Hk].
    + exists [request_of this (env w) (ChargeCard data)]. split; [|split].
      * exact (invoke_requests network this (ChargeCard data) w Hk).
      * constructor; [|constructor].
        cbn [request_of body]. rewrite envelope_fixed. split; reflexivity.
      * reflexivity.
    + exists []. split; [|split].
      * rewrite app_nil_r.
        apply (chargeCard_invalid_key network this data w Hk).
      * constructor.
      * intros Habs. contradiction.
  - unfold cardData. destruct (authorization data); split; reflexivity.
Qed.

(** ** Further properties of the card service *)

Module CardServiceFacts.
Import Outcome.

(** Unfolds the monad of the card service. *)
Ltac step :=
  cbv beta iota zeta
    delta [try_catch bind ret throw lift process_env_now logger prop
           axios_post axios_get axios settled check_status sent report
           fst snd].

Section WithGateway.
Context {des : Forge.TripleDES}.
Variable network : list request -> request -> axios_outcome.

Lemma invoke_rejected this c w m rd :
  match c with ChargeCard _ => valid_key this | _ => True end ->
  network (requests w) (request_of this (env w) c) = Rejects m rd ->
  invoke network this c w =
  (JS.Throw (ApiError httpStatus.BAD_REQUEST
               (reported (JS.mk_exn JS.AxiosError m rd) (generic_message c))),
   failed_world w (request_of this (env w) c) (failure_label c)
     (JS.or_else rd (JS.Str m))).
Proof.
  intros Hk Hnet. rewrite (invoke_run network this c w Hk), Hnet.
  reflexivity.
Qed.

Lemma invoke_null_body this c w body :
  match c with ChargeCard _ => valid_key this | _ => True end ->
  network (requests w) (request_of this (env w) c) = Resolves body ->
  nullish body = true ->
  exists msg,
    invoke network this c w =
    (JS.Throw (JS.mk_exn (JS.ApiErrorKind httpStatus.BAD_REQUEST) msg
                 JS.Undefined),
     failed_world w (request_of this (env w) c) (failure_label c)
       (JS.Str msg))
    /\ msg <> generic_message c.
Proof.
  intros Hk Hnet Hn. rewrite (invoke_run network this c w Hk), Hnet.
  destruct body; try discriminate Hn;
    destruct c; (eexists; split; [reflexivity | discriminate]).
Qed.

Lemma invoke_passes this c w body :
  match c with ChargeCard _ => False | _ => True end ->
  network (requests w) (request_of this (env w) c) = Resolves body ->
  nullish body = false ->
  JS.strict_eq_str (JS.get_opt body "status") "error" = false ->
  invoke network this c w = (JS.Ok body, sent w (request_of this (env w) c)).
Proof.
  intros Hc Hnet Hnn He.
  assert (match c with ChargeCard _ => valid_key this | _ => True end) as Hk.
  { destruct c; [contradiction | exact I ..]. }
  rewrite (invoke_run network this c w Hk), Hnet.
  destruct c; [contradiction | ..]; cbn [settled]; unfold try_catch;
    rewrite (check_status_pass _ _ Hnn He); reflexivity.
Qed.

(** What handling the settled promise adds to the log. *)
Lemma handled_logs c o w :
  let r := try_catch (settled c o)
             (report (failure_label c) (generic_message c)) w in
  match fst r with
  | JS.Ok _ =>
      exists added,
        logs (snd r) = (logs w ++ added)%list
        /\ Forall (fun entry => level entry = Info) added
  | JS.Throw _ =>
      exists d,
        logs (snd r) =
        (logs w ++ [{| level := Error; text := failure_label c;
                       detail := d |}])%list
  end.
Proof.
  cbv zeta. destruct o as [rd | m rd]; [|eexists; reflexivity].
  destruct (nullish rd) eqn:Hn.
  - destruct (check_status_nullish rd w Hn) as [e He].
    destruct c; cbn [settled]; unfold try_catch, bind; rewrite He;
      eexists; reflexivity.
  - destruct (JS.strict_eq_str (JS.get_opt rd "status") "error") eqn:Herr.
    + destruct c; cbn [settled]; unfold try_catch, bind;
        rewrite (check_status_error _ _ Herr); eexists; reflexivity.
    + destruct c; cbn [settled]; unfold try_catch, bind;
        rewrite (check_status_pass _ _ Hn Herr);
        try (exists []; split; [symmetry; apply app_nil_r | constructor]).
      destruct (needs_validation data rd).
      * eexists. split; [reflexivity|]. constructor; [reflexivity|constructor].
      * exists []. split; [symmetry; apply app_nil_r | constructor].
Qed.

End WithGateway.
End CardServiceFacts.

Import Outcome Cases CardServiceFacts.

Lemma list_ascii_length s :
  length (list_ascii_of_string s) = String.length s.
Proof. induction s as [|c s IH]; simpl; congruence. Qed.

Lemma missing_false v :
  missing v = false -> exists s, v = Some s /\ s <> "".
Proof.
  unfold missing. destruct v as [s|]; simpl; [|discriminate].
  intros H. exists s. split; [reflexivity|].
  apply negb_false_iff, negb_true_iff, String.eqb_neq in H. exact H.
Qed.

Lemma missing_true v : missing v = true <-> v = None \/ v = Some "".
Proof.
  unfold missing. destruct v as [s|]; simpl.
  - rewrite negb_involutive, String.eqb_eq. split.
    + intros ->. right. reflexivity.
    + intros [H | H]; [discriminate H | congruence].
  - split; auto.
Qed.

(** X1: every request of a service the constructor has built goes to the
    gateway's v3 API and carries the JSON content type and the bearer
    credential of FLUTTERWAVE_SECRET_KEY, which is not empty. *)
Theorem X1_constructed_service_sends_bearer :
  forall (des : Forge.TripleDES)
         (network : list request -> request -> axios_outcome)
         (e : process_env) (this : t) (c : call) (w : world),
    constructor e = JS.Ok this ->
    match c with ChargeCard _ => valid_key this | _ => True end ->
    exists req sk,
      requests (snd (invoke network this c w)) = (requests w ++ [req])%list
      /\ FLUTTERWAVE_SECRET_KEY e = Some sk
      /\ sk <> ""
      /\ request_headers req =
         [("Content-Type", "application/json");
          ("Authorization", "Bearer " ++ sk)]
      /\ String.prefix "https://api.flutterwave.com/v3/" (url req) = true.
Proof.
  intros des network e this c w Hc Hk.
  exists (request_of this (env w) c).
  unfold constructor in Hc.
  destruct (missing (FLUTTERWAVE_PUBLIC_KEY e)); [discriminate Hc|].
  destruct (missing (FLUTTERWAVE_SECRET_KEY e)) eqn:Hs; [discriminate Hc|].
  destruct (missing (FLUTTERWAVE_ENCRYPTION_KEY e)); [discriminate Hc|].
  destruct (missing (FLUTTERWAVE_REDIRECT_URL e)); [discriminate Hc|].
  cbn [orb] in Hc. injection Hc as <-.
  destruct (missing_false _ Hs) as [sk [Hsk Hne]]. exists sk.
  split; [exact (invoke_requests network _ c w Hk)|].
  split; [exact Hsk|]. split; [exact Hne|].
  rewrite Hsk. destruct c; split; reflexivity.
Qed.

Lemma X1_witness :
  exists req sk,
    requests
      (snd (invoke (des := MaskCipher.cipher) (answer body_successful)
              service0 (VerifyPayment "4271") world0))
    = (requests world0 ++ [req])%list
    /\ FLUTTERWAVE_SECRET_KEY env0 = Some sk
    /\ sk <> ""
    /\ request_headers req =
       [("Content-Type", "application/json");
        ("Authorization", "Bearer " ++ sk)]
    /\ String.prefix "https://api.flutterwave.com/v3/" (url req) = true.
Proof.
  apply (X1_constructed_service_sends_bearer MaskCipher.cipher
           (answer body_successful) env0 service0 (VerifyPayment "4271")
           world0);
    [reflexivity | exact I].
Defined.

(** A constructed service holds the variables of its environment. *)
Lemma constructor_holds_environment e this :
  constructor e = JS.Ok this ->
  FLUTTERWAVE_PUBLIC_KEY e = Some (publicKey (config this))
  /\ FLUTTERWAVE_SECRET_KEY e = Some (secretKey (config this))
  /\ FLUTTERWAVE_ENCRYPTION_KEY e = Some (encryptionKey (config this))
  /\ FLUTTERWAVE_REDIRECT_URL e = Some (redirectUrl (config this))
  /\ (isTestMode (config this) = true
      <-> FLUTTERWAVE_TEST_MODE e = Some "true").
Proof.
  unfold constructor.
  destruct (missing (FLUTTERWAVE_PUBLIC_KEY e)) eqn:H1; [discriminate|].
  destruct (missing (FLUTTERWAVE_SECRET_KEY e)) eqn:H2; [discriminate|].
  destruct (missing (FLUTTERWAVE_ENCRYPTION_KEY e)) eqn:H3; [discriminate|].
  destruct (missing (FLUTTERWAVE_REDIRECT_URL e)) eqn:H4; [discriminate|].
  cbn [orb]. intros H. injection H as <-. cbn.
  destruct (missing_false _ H1) as [s1 [-> _]].
  destruct (missing_false _ H2) as [s2 [-> _]].
  destruct (missing_false _ H3) as [s3 [-> _]].
  destruct (missing_false _ H4) as [s4 [-> _]].
  repeat split; try reflexivity.
  - destruct (FLUTTERWAVE_TEST_MODE e) as [m|]; simpl; [|discriminate].
    intros H. apply String.eqb_eq in H. congruence.
  - intros ->. reflexivity.
Qed.

(** X2: the constructor refuses the environment exactly when one of the
    public key, the secret key, the encryption key and the redirect URL is
    unset or empty; it then fails with an [ApiError] of status 500. Otherwise
    the service holds the four values as they are, and is in test mode
    exactly when FLUTTERWAVE_TEST_MODE is the string "true". *)
Theorem X2_constructor_needs_four_variables :
  forall (e : process_env),
    let unset (v : option string) := v = None \/ v = Some "" in
    (unset (FLUTTERWAVE_PUBLIC_KEY e) \/ unset (FLUTTERWAVE_SECRET_KEY e)
     \/ unset (FLUTTERWAVE_ENCRYPTION_KEY e)
     \/ unset (FLUTTERWAVE_REDIRECT_URL e)
     <-> constructor e =
         JS.Throw (ApiError httpStatus.INTERNAL_SERVER_ERROR
                     (JS.Str "Flutterwave configuration is incomplete")))
    /\ (forall this,
           constructor e = JS.Ok this ->
           FLUTTERWAVE_PUBLIC_KEY e = Some (publicKey (config this))
           /\ FLUTTERWAVE_SECRET_KEY e = Some (secretKey (config this))
           /\ FLUTTERWAVE_ENCRYPTION_KEY e
              = Some (encryptionKey (config this))
           /\ FLUTTERWAVE_REDIRECT_URL e = Some (redirectUrl (config this))
           /\ (isTestMode (config this) = true
               <-> FLUTTERWAVE_TEST_MODE e = Some "true")).
Proof.
  intros e unset. subst unset. cbv beta.
  split; [|exact (constructor_holds_environment e)].
  rewrite <- !missing_true. unfold constructor.
  destruct (missing (FLUTTERWAVE_PUBLIC_KEY e)); [split; auto|].
  destruct (missing (FLUTTERWAVE_SECRET_KEY e)); [split; auto|].
  destruct (missing (FLUTTERWAVE_ENCRYPTION_KEY e)); [split; auto|].
  destruct (missing (FLUTTERWAVE_REDIRECT_URL e)); [split; auto|].
  cbn [orb]. split; [|intros H; discriminate H].
  intros [H | [H | [H | H]]]; discriminate H.
Qed.

(** X3: the constructor does not look at the length of the encryption key.
    With a key that is not 24 characters long every [chargeCard] fails with
    an [ApiError] of status 400 before any request is made; the failure is
    logged once. *)
Theorem X3_short_key_fails_before_any_request :
  forall (des : Forge.TripleDES)
         (network : list request -> request -> axios_outcome)
         (e : process_env) (this : t) (k : string) (data : CardPaymentData)
         (w : world),
    constructor e = JS.Ok this ->
    FLUTTERWAVE_ENCRYPTION_KEY e = Some k ->
    String.length k <> 24 ->
    exists msg d,
      chargeCard network this data w =
      (JS.Throw (JS.mk_exn (JS.ApiErrorKind httpStatus.BAD_REQUEST) msg
                   JS.Undefined),
       {| env := env w;
          requests := requests w;
          logs := (logs w ++ [{| level := Error;
                                 text := "Flutterwave card charge failed:";
                                 detail := d |}])%list |}).
Proof.
  intros des network e this k data w Hc He Hlen.
  destruct (constructor_holds_environment e this Hc) as (_ & _ & Hek & _).
  assert (~ valid_key this) as Hk.
  { unfold valid_key, key_bytes, Forge.createBuffer.
    rewrite list_ascii_length. congruence. }
  unfold chargeCard. step.
  destruct (encryptCardData_invalid this (cardData (env w) data) Hk)
    as [err ->].
  eexists. eexists. reflexivity.
Qed.

Lemma X3_witness :
  exists msg d,
    chargeCard (des := MaskCipher.cipher) (answer body_successful)
      service_short_key (charge None None None) world0 =
    (JS.Throw (JS.mk_exn (JS.ApiErrorKind httpStatus.BAD_REQUEST) msg
                 JS.Undefined),
     {| env := env world0;
        requests := requests world0;
        logs := (logs world0 ++ [{| level := Error;
                                    text := "Flutterwave card charge failed:";
                                    detail := d |}])%list |}).
Proof.
  apply (X3_short_key_fails_before_any_request MaskCipher.cipher
           (answer body_successful) env_short_key service_short_key
           "sixteen-byte-key" (charge None None None) world0);
    [reflexivity | reflexivity | discriminate].
Defined.

(** X4: when the promise of axios rejects, each of the six operations fails
    with an [ApiError] of status 400 after its one request, and logs the
    failure once with the response data (or, without any, the error's
    message). The reported message is the [message] of the response data when
    that is a non-empty string; when the response data has no truthy
    [message] it is the message of the axios error, or the operation's
    generic message if that is empty. *)
Theorem X4_transport_failure_is_reported :
  forall (des : Forge.TripleDES)
         (network : list request -> request -> axios_outcome)
         (this : t) (c : call) (w : world) (m : string) (rd : JS.value),
    match c with ChargeCard _ => valid_key this | _ => True end ->
    network (requests w) (request_of this (env w) c) = Rejects m rd ->
    exists msg,
      invoke network this c w =
      (JS.Throw (JS.mk_exn (JS.ApiErrorKind httpStatus.BAD_REQUEST) msg
                   JS.Undefined),
       failed_world w (request_of this (env w) c) (failure_label c)
         (JS.or_else rd (JS.Str m)))
      /\ (forall s, JS.get_opt rd "message" = JS.Str s -> s <> "" -> msg = s)
      /\ (JS.truthy (JS.get_opt rd "message") = false ->
          msg = if m =? "" then generic_message c else m).
Proof.
  intros des network this c w m rd Hk Hnet.
  eexists. split; [exact (invoke_rejected network this c w m rd Hk Hnet)|].
  split.
  - intros s Hs Hne. apply reported_gateway_message; assumption.
  - intros Hf. unfold reported, JS.or_else. cbn [JS.response_data JS.message].
    rewrite Hf. cbn [JS.truthy]. destruct (m =? ""); reflexivity.
Qed.

Lemma X4_witness :
  exists msg,
    invoke (des := MaskCipher.cipher)
      (refuse "Request failed with status code 401" body_unauthorized)
      service0 (GetCardBIN "418742") world0 =
    (JS.Throw (JS.mk_exn (JS.ApiErrorKind httpStatus.BAD_REQUEST) msg
                 JS.Undefined),
     failed_world world0
       (request_of (des := MaskCipher.cipher) service0 env0
          (GetCardBIN "418742"))
       "Flutterwave card BIN lookup failed:" body_unauthorized)
    /\ (forall s, JS.Str "Unauthorized" = JS.Str s -> s <> "" -> msg = s)
    /\ (JS.truthy (JS.get_opt body_unauthorized "message") = false ->
        msg = "Request failed with status code 401").
Proof.
  apply (X4_transport_failure_is_reported MaskCipher.cipher
           (refuse "Request failed with status code 401" body_unauthorized)
           service0 (GetCardBIN "418742") world0
           "Request failed with status code 401" body_unauthorized);
    [exact I | reflexivity].
Defined.

(** X5: a response whose body is [null] (or missing) is never returned as a
    success: each of the six operations fails with an [ApiError] of status
    400 after its one request and logs the failure once; the message is that
    of the failed property access, not the operation's generic one. *)
Theorem X5_null_body_is_a_failure :
  forall (des : Forge.TripleDES)
         (network : list request -> request -> axios_outcome)
         (this : t) (c : call) (w : world) (body : JS.value),
    match c with ChargeCard _ => valid_key this | _ => True end ->
    network (requests w) (request_of this (env w) c) = Resolves body ->
    nullish body = true ->
    exists msg,
      invoke network this c w =
      (JS.Throw (JS.mk_exn (JS.ApiErrorKind httpStatus.BAD_REQUEST) msg
                   JS.Undefined),
       failed_world w (request_of this (env w) c) (failure_label c)
         (JS.Str msg))
      /\ msg <> generic_message c.
Proof.
  intros des network this c w body Hk Hnet Hn.
  exact (invoke_null_body network this c w body Hk Hnet Hn).
Qed.

Lemma X5_witness :
  exists msg,
    invoke (des := MaskCipher.cipher) (answer JS.Null) service0
      (VerifyPayment "4271") world0 =
    (JS.Throw (JS.mk_exn (JS.ApiErrorKind httpStatus.BAD_REQUEST) msg
                 JS.Undefined),
     failed_world world0
       (request_of (des := MaskCipher.cipher) service0 env0
          (VerifyPayment "4271"))
       "Flutterwave payment verification failed:" (JS.Str msg))
    /\ msg <> "Payment verification failed".
Proof.
  apply (X5_null_body_is_a_failure MaskCipher.cipher (answer JS.Null)
           service0 (VerifyPayment "4271") world0 JS.Null);
    [exact I | reflexivity | reflexivity].
Defined.

(** X6: [chargeWithToken], [validateCharge], [getCardBIN], [verifyPayment]
    and [voidPreauthorization] return the gateway's body unchanged whenever
    it is not [null] and its top-level status is not "error", whatever else
    it says; the world gains the one request and no log line. *)
Theorem X6_other_operations_pass_the_body_through :
  forall (des : Forge.TripleDES)
         (network : list request -> request -> axios_outcome)
         (this : t) (c : call) (w : world) (body : JS.value),
    match c with ChargeCard _ => False | _ => True end ->
    network (requests w) (request_of this (env w) c) = Resolves body ->
    nullish body = false ->
    JS.strict_eq_str (JS.get_opt body "status") "error" = false ->
    invoke network this c w
    = (JS.Ok body, sent w (request_of this (env w) c)).
Proof.
  intros des network this c w body Hc Hnet Hnn He.
  exact (invoke_passes network this c w body Hc Hnet Hnn He).
Qed.

Lemma X6_witness :
  invoke (des := MaskCipher.cipher) (answer body_unknown) service0
    (VoidPreauthorization "4271") world0
  = (JS.Ok body_unknown,
     sent world0
       (request_of (des := MaskCipher.cipher) service0 env0
          (VoidPreauthorization "4271"))).
Proof.
  apply (X6_other_operations_pass_the_body_through MaskCipher.cipher
           (answer body_unknown) service0 (VoidPreauthorization "4271")
           world0 body_unknown);
    [exact I | reflexivity | reflexivity | reflexivity].
Defined.

(** X7: for an amount that is a safe integer, [chargeWithToken] posts the
    token, the currency (RWF when the caller gave none or an empty one), the
    amount as its decimal numeral, the email, the reference and the
    configured redirect URL to /tokenized-charges, and nothing else: the
    narration of the input is never sent, and two inputs that differ in the
    narration alone run alike. *)
Theorem X7_tokenized_charge_never_sends_narration :
  forall (network : list request -> request -> axios_outcome)
         (this : t) (d : TokenizedChargeData.t) (w : world),
    JS.safe_integer (TokenizedChargeData.amount d) ->
    requests (snd (chargeWithToken network this d w)) =
    (requests w ++
       [{| method := POST;
           url := baseUrl this ++ "/tokenized-charges";
           body :=
             JS.Obj
               [("token", JS.Str (TokenizedChargeData.token d));
                ("currency",
                 JS.Str match TokenizedChargeData.currency d with
                        | Some cur => if cur =? "" then "RWF" else cur
                        | None => "RWF"
                        end);
                ("amount",
                 JS.Str (JS.Number_toString (TokenizedChargeData.amount d)));
                ("email", JS.Str (TokenizedChargeData.email d));
                ("tx_ref", JS.Str (TokenizedChargeData.tx_ref d));
                ("redirect_url", JS.Str (redirectUrl (config this)))];
           request_headers := headers this |}])%list
    /\ (forall d',
           TokenizedChargeData.token d' = TokenizedChargeData.token d ->
           TokenizedChargeData.email d' = TokenizedChargeData.email d ->
           TokenizedChargeData.amount d' = TokenizedChargeData.amount d ->
           TokenizedChargeData.tx_ref d' = TokenizedChargeData.tx_ref d ->
           TokenizedChargeData.currency d' = TokenizedChargeData.currency d ->
           chargeWithToken network this d' w
           = chargeWithToken network this d w).
Proof.
  intros network this d w _. split.
  - rewrite (invoke_requests (des := MaskCipher.cipher) network this
               (ChargeWithToken d) w I
             : requests (snd (chargeWithToken _ _ _ _)) = _).
    cbn [request_of]. do 4 f_equal.
    destruct (TokenizedChargeData.currency d) as [cur|]; [|reflexivity].
    unfold JS.or_else. simpl. destruct (cur =? ""); reflexivity.
  - intros d' H1 H2 H3 H4 H5. unfold chargeWithToken.
    rewrite H1, H2, H3, H4, H5. reflexivity.
Qed.

Lemma X7_witness :
  let d := {| TokenizedChargeData.token := "flw-t1nf-f9b3bf384cd30d6f";
              TokenizedChargeData.email := "user@example.com";
              TokenizedChargeData.amount := 2500;
              TokenizedChargeData.tx_ref := "MC-tok-19";
              TokenizedChargeData.currency := Some "";
              TokenizedChargeData.narration := "renewal" |} in
  requests (snd (chargeWithToken (answer body_successful) service0 d world0))
  = [{| method := POST;
        url := "https://api.flutterwave.com/v3/tokenized-charges";
        body :=
          JS.Obj
            [("token", JS.Str "flw-t1nf-f9b3bf384cd30d6f");
             ("currency", JS.Str "RWF");
             ("amount", JS.Str "2500");
             ("email", JS.Str "user@example.com");
             ("tx_ref", JS.Str "MC-tok-19");
             ("redirect_url", JS.Str "https://merchant.example/callback")];
        request_headers := headers service0 |}].
Proof.
  cbv zeta.
  refine (proj1
    (X7_tokenized_charge_never_sends_narration (answer body_successful)
       service0
       {| TokenizedChargeData.token := "flw-t1nf-f9b3bf384cd30d6f";
          TokenizedChargeData.email := "user@example.com";
          TokenizedChargeData.amount := 2500;
          TokenizedChargeData.tx_ref := "MC-tok-19";
          TokenizedChargeData.currency := Some "";
          TokenizedChargeData.narration := "renewal" |}
       world0 _)).
  unfold JS.safe_integer. simpl. lia.
Defined.

(** X8: the [authorization] object [chargeCard] encrypts names the mode by
    its lower-case value, and holds a pin only in PIN mode and an otp only in
    OTP mode: a pin or otp given with any other mode is not sent. *)
Theorem X8_pin_and_otp_only_in_their_mode :
  forall (a : Authorization),
    JS.get (authorization_payload a) "mode"
    = Some (JS.Str (AuthorizationMode.value (mode a)))
    /\ JS.get (authorization_payload a) "pin"
       = Some (if AuthorizationMode.eqb (mode a) AuthorizationMode.PIN
                  && JS.truthy (opt_str (pin a))
               then opt_str (pin a) else JS.Undefined)
    /\ JS.get (authorization_payload a) "otp"
       = Some (if AuthorizationMode.eqb (mode a) AuthorizationMode.OTP
                  && JS.truthy (opt_str (otp a))
               then opt_str (otp a) else JS.Undefined).
Proof.
  intros a. unfold authorization_payload.
  destruct (mode a); cbn [AuthorizationMode.eqb andb AuthorizationMode.value];
    repeat match goal with
           | |- context [if JS.truthy ?v then _ else _] =>
               destruct (JS.truthy v)
           end;
    repeat split; reflexivity.
Qed.

(** X9: no operation retries. Whatever the gateway does, an operation adds
    at most one request to those made before, and it adds none only when it
    fails. *)
Theorem X9_at_most_one_request :
  forall (des : Forge.TripleDES)
         (network : list request -> request -> axios_outcome)
         (this : t) (c : call) (w : world),
    exists made,
      requests (snd (invoke network this c w)) = (requests w ++ made)%list
      /\ length made <= 1
      /\ (made = [] -> exists e, fst (invoke network this c w) = JS.Throw e).
Proof.
  intros des network this c w.
  assert (match c with ChargeCard _ => valid_key this | _ => True end
          \/ exists data, c = ChargeCard data /\ ~ valid_key this) as [Hk | Hk].
  { destruct c; auto.
    destruct (Nat.eq_dec (length (key_bytes this)) 24); eauto. }
  - exists [request_of this (env w) c].
    split; [exact (invoke_requests network this c w Hk)|].
    split; [reflexivity | discriminate].
  - destruct Hk as [data [-> Hk]]. exists [].
    destruct (chargeCard_invalid_key network this data w Hk) as [He Hr].
    split; [rewrite app_nil_r; exact Hr|].
    split; [simpl; lia | intros _; exact He].
Qed.

(** X10: every failure of an operation is logged exactly once, at error
    level and under the operation's label; an operation that returns a value
    logs nothing at error level. *)
Theorem X10_failures_are_logged_once :
  forall (des : Forge.TripleDES)
         (network : list request -> request -> axios_outcome)
         (this : t) (c : call) (w : world),
    match fst (invoke network this c w) with
    | JS.Ok _ =>
        exists added,
          logs (snd (invoke network this c w)) = (logs w ++ added)%list
          /\ Forall (fun entry => level entry = Info) added
    | JS.Throw _ =>
        exists d,
          logs (snd (invoke network this c w)) =
          (logs w ++ [{| level := Error; text := failure_label c;
                         detail := d |}])%list
    end.
Proof.
  intros des network this c w.
  assert (match c with ChargeCard _ => valid_key this | _ => True end
          \/ exists data, c = ChargeCard data /\ ~ valid_key this) as [Hk | Hk].
  { destruct c; auto.
    destruct (Nat.eq_dec (length (key_bytes this)) 24); eauto. }
  - rewrite (invoke_run network this c w Hk).
    exact (handled_logs c _ (sent w (request_of this (env w) c))).
  - destruct Hk as [data [-> Hk]]. cbn [invoke failure_label].
    unfold chargeCard. step.
    destruct (encryptCardData_invalid this (cardData (env w) data) Hk)
      as [err ->].
    eexists. reflexivity.
Qed.

(** ** Properties of the mobile-money wrapper *)

Module MomoFacts.
Import Momo MomoRun.

(** Unfolds the monad of the wrapper. *)
Ltac step :=
  cbv beta iota zeta
    delta [Momo.try_catch Momo.bind Momo.ret Momo.throw Momo.logger_error
           Momo.prop Momo.axios Momo.report generateToken after error_line
           fst snd].

Lemma or_default_not_empty v d : d <> "" -> or_default v d <> "".
Proof.
  intros Hd. unfold or_default. destruct v as [s|]; [|exact Hd].
  destruct (s =? "") eqn:E; [exact Hd|]. apply String.eqb_neq, E.
Qed.

Lemma or_default_empty v :
  or_default v "" = "" <-> v = None \/ v = Some "".
Proof.
  unfold or_default. destruct v as [s|].
  - destruct (s =? "") eqn:E.
    + apply String.eqb_eq in E. subst s. split; auto.
    + apply String.eqb_neq in E. split; [contradiction|].
      intros [H | H]; [discriminate H | congruence].
  - split; auto.
Qed.

Lemma or_default_given v :
  or_default v "" <> "" -> v = Some (or_default v "").
Proof.
  unfold or_default. destruct v as [s|]; [|contradiction].
  destruct (s =? ""); [contradiction | reflexivity].
Qed.

Lemma header_set_same k v h : header k (set_header k v h) = Some v.
Proof.
  induction h as [|[k' v'] h IH]; simpl.
  - rewrite String.eqb_refl. reflexivity.
  - destruct (k' =? k) eqn:E; simpl.
    + rewrite String.eqb_refl. reflexivity.
    + rewrite E. exact IH.
Qed.

Lemma header_set_other k k' v h :
  k <> k' -> header k' (set_header k v h) = header k' h.
Proof.
  intros Hk. induction h as [|[k0 v0] h IH]; simpl.
  - apply String.eqb_neq in Hk. rewrite Hk. reflexivity.
  - destruct (k0 =? k) eqn:E; simpl.
    + apply String.eqb_eq in E. subst k0.
      apply String.eqb_neq in Hk. rewrite Hk. reflexivity.
    + destruct (k0 =? k'); [reflexivity | exact IH].
Qed.

Lemma get_access_token tok :
  Run.nullish tok = false ->
  JS.get tok "access_token" = Some (JS.get_opt tok "access_token").
Proof.
  unfold JS.get_opt. destruct tok; simpl; try discriminate; try reflexivity.
  intros _. destruct (JS.lookup "access_token" props); reflexivity.
Qed.

Lemma remove_first_plus_no_plus s : no_plus s = true -> remove_first_plus s = s.
Proof.
  induction s as [|c s IH]; [reflexivity|]. simpl.
  destruct (Ascii.eqb c "+"); simpl; [discriminate|].
  intros H. rewrite IH by exact H. reflexivity.
Qed.

Lemma remove_first_plus_app a b :
  no_plus a = true -> remove_first_plus (a ++ String "+" b) = a ++ b.
Proof.
  induction a as [|c a IH]; [reflexivity|]. simpl.
  destruct (Ascii.eqb c "+"); simpl; [discriminate|].
  intros H. rewrite IH by exact H. reflexivity.
Qed.

End MomoFacts.

Module MomoProperties.
Import Momo MomoRun MomoFacts.

(** X11: the mobile-money constructor fails, with an [ApiError] of status
    500, exactly when the primary key, the user name or the password is unset
    or empty. A missing base URL or target environment is no failure: they
    default to the production proxy and to "mtnrwanda". A constructed
    configuration has no empty field. *)
Theorem X11_momo_constructor_needs_three_variables :
  forall (e : momo_env),
    let unset (v : option string) := v = None \/ v = Some "" in
    (unset (MOMO_PRIMARY_KEY e) \/ unset (MOMO_USERNAME e)
     \/ unset (MOMO_PASSWORD e)
     <-> constructor e =
         JS.Throw (ApiError httpStatus.INTERNAL_SERVER_ERROR
                     (JS.Str "MTN MOMO configuration is incomplete")))
    /\ (forall config,
           constructor e = JS.Ok config ->
           MOMO_PRIMARY_KEY e = Some (primaryKey config)
           /\ MOMO_USERNAME e = Some (username config)
           /\ MOMO_PASSWORD e = Some (password config)
           /\ (unset (MOMO_BASE_URL e) ->
               baseUrl config = "https://proxy.momoapi.mtn.co.rw/collection")
           /\ (unset (MOMO_ENV e) -> env config = "mtnrwanda")
           /\ primaryKey config <> "" /\ username config <> ""
           /\ password config <> "" /\ baseUrl config <> ""
           /\ env config <> "").
Proof.
  intros e unset. subst unset. cbv beta.
  unfold constructor, validateConfig. cbn [primaryKey username password].
  rewrite <- !or_default_empty.
  destruct (or_default (MOMO_PRIMARY_KEY e) "" =? "") eqn:E1;
    [apply String.eqb_eq in E1; split;
       [split; auto | intros config H; discriminate H]|].
  destruct (or_default (MOMO_USERNAME e) "" =? "") eqn:E2;
    [apply String.eqb_eq in E2; split;
       [split; auto | intros config H; discriminate H]|].
  destruct (or_default (MOMO_PASSWORD e) "" =? "") eqn:E3;
    [apply String.eqb_eq in E3; split;
       [split; auto | intros config H; discriminate H]|].
  apply String.eqb_neq in E1, E2, E3. cbn [orb]. split.
  - split; [|intros H; discriminate H].
    intros [H | [H | H]]; contradiction.
  - intros config H. injection H as <-.
    cbn [primaryKey username password baseUrl env].
    repeat split; try assumption;
      try (apply or_default_given; assumption);
      try (apply or_default_not_empty; discriminate).
    + intros Hu. apply or_default_empty in Hu. unfold or_default in *.
      destruct (MOMO_BASE_URL e) as [s|]; [|reflexivity].
      destruct (s =? "") eqn:E; [reflexivity|].
      subst s. discriminate E.
    + intros Hu. apply or_default_empty in Hu. unfold or_default in *.
      destruct (MOMO_ENV e) as [s|]; [|reflexivity].
      destruct (s =? "") eqn:E; [reflexivity|].
      subst s. discriminate E.
Qed.

(** X12: when the token request resolves with a body that is not [null]
    and the payment request resolves, [requestPayment] has made exactly these
    two requests, in this order, has logged nothing, and returns the caller's
    own reference as [referenceId], whatever the gateway answered to the
    payment request. *)
Theorem X12_requestPayment_two_requests :
  forall (network : list request -> request -> axios_outcome)
         (config : MomoConfig) (amount : Z)
         (phoneNumber externalId externalReference : string)
         (payerMessage payeeNote : option string) (w : world)
         (tok answered : JS.value),
    network (requests w) (token_request config) = Resolves tok ->
    Run.nullish tok = false ->
    network (requests w ++ [token_request config])%list
      (payment_request config (JS.get_opt tok "access_token") amount
         phoneNumber externalId externalReference payerMessage payeeNote)
    = Resolves answered ->
    requestPayment network config amount phoneNumber externalId
      externalReference payerMessage payeeNote w
    = (JS.Ok (JS.Obj [("referenceId", JS.Str externalReference)]),
       after w
         [token_request config;
          payment_request config (JS.get_opt tok "access_token") amount
            phoneNumber externalId externalReference payerMessage payeeNote]
         []).
Proof.
  intros network config amount phoneNumber externalId externalReference
    payerMessage payeeNote w tok answered Htok Hnn Hpay.
  unfold requestPayment. step.
  fold (token_request config). rewrite Htok.
  rewrite (get_access_token tok Hnn). step.
  fold (payment_request config (JS.get_opt tok "access_token") amount
          phoneNumber externalId externalReference payerMessage payeeNote).
  cbn [requests]. rewrite Hpay.
  rewrite <- app_assoc, app_nil_r. reflexivity.
Qed.

Lemma X12_witness :
  requestPayment (always (Resolves token_body)) config0 1500 "+250788123456"
    "order-17" "7f0c7e2e-5d0b-4d1f-9d2a-0c8a6f4b1e11" None None world0
  = (JS.Ok (JS.Obj [("referenceId",
                     JS.Str "7f0c7e2e-5d0b-4d1f-9d2a-0c8a6f4b1e11")]),
     after world0
       [token_request config0;
        payment_request config0 (JS.get_opt token_body "access_token") 1500
          "+250788123456" "order-17" "7f0c7e2e-5d0b-4d1f-9d2a-0c8a6f4b1e11"
          None None]
       []).
Proof.
  apply (X12_requestPayment_two_requests (always (Resolves token_body))
           config0 1500 "+250788123456" "order-17"
           "7f0c7e2e-5d0b-4d1f-9d2a-0c8a6f4b1e11" None None world0
           token_body token_body);
    reflexivity.
Defined.

(** The headers of a payment request, by the token it is built under. *)
Lemma payment_request_headers config access_token amount phoneNumber
    externalId externalReference payerMessage payeeNote :
  let h := headers (payment_request config access_token amount phoneNumber
                      externalId externalReference payerMessage payeeNote) in
  header "Ocp-Apim-Subscription-Key" h = Some (primaryKey config)
  /\ header "X-Reference-Id" h = Some externalReference
  /\ header "Content-Type" h = Some "application/json"
  /\ header "Authorization" h
     = (if JS.truthy access_token
        then Some ("Bearer " ++ JS.ToString access_token) else None)
  /\ header "X-Target-Environment" h
     = (if JS.truthy access_token then Some (env config) else None).
Proof.
  intros h. subst h.
  cbn [headers payment_request]. unfold getHeaders.
  rewrite header_set_same.
  rewrite !(header_set_other "Content-Type") by discriminate.
  rewrite header_set_same.
  rewrite !(header_set_other "X-Reference-Id") by discriminate.
  destruct (JS.truthy access_token); repeat split; reflexivity.
Qed.

(** X13: once the token request has resolved with a body that is not
    [null], [requestPayment] makes a second request, whether or not that one
    then succeeds: a POST to /v1_0/requesttopay with the payment data, the
    subscription key, the caller's reference as X-Reference-Id and the JSON
    content type. That request carries the bearer token and the target
    environment only when the token response held a truthy [access_token]; a
    token response without one does not stop the payment request, which then
    goes out with no Authorization header. *)
Theorem X13_payment_request_headers :
  forall (network : list request -> request -> axios_outcome)
         (config : MomoConfig) (amount : Z)
         (phoneNumber externalId externalReference : string)
         (payerMessage payeeNote : option string) (w : world)
         (tok : JS.value),
    network (requests w) (token_request config) = Resolves tok ->
    Run.nullish tok = false ->
    exists req,
      requests
        (snd (requestPayment network config amount phoneNumber externalId
                externalReference payerMessage payeeNote w))
      = (requests w ++ [token_request config; req])%list
      /\ method req = POST
      /\ url req = baseUrl config ++ "/v1_0/requesttopay"
      /\ body req = requestData config amount phoneNumber externalId
                      payerMessage payeeNote
      /\ auth req = None
      /\ header "Ocp-Apim-Subscription-Key" (headers req)
         = Some (primaryKey config)
      /\ header "X-Reference-Id" (headers req) = Some externalReference
      /\ header "Content-Type" (headers req) = Some "application/json"
      /\ header "Authorization" (headers req)
         = (if JS.truthy (JS.get_opt tok "access_token")
            then Some ("Bearer "
                         ++ JS.ToString (JS.get_opt tok "access_token"))
            else None)
      /\ header "X-Target-Environment" (headers req)
         = (if JS.truthy (JS.get_opt tok "access_token")
            then Some (env config) else None).
Proof.
  intros network config amount phoneNumber externalId externalReference
    payerMessage payeeNote w tok Htok Hnn.
  exists (payment_request config (JS.get_opt tok "access_token") amount
            phoneNumber externalId externalReference payerMessage payeeNote).
  split.
  - unfold requestPayment. step.
    fold (token_request config). rewrite Htok.
    rewrite (get_access_token tok Hnn). step.
    fold (payment_request config (JS.get_opt tok "access_token") amount
            phoneNumber externalId externalReference payerMessage payeeNote).
    cbn [requests].
    destruct (network (requests w ++ [token_request config])%list _)
      as [answered | m rd];
      cbn [requests]; rewrite <- app_assoc; reflexivity.
  - do 4 (split; [reflexivity|]).
    exact (payment_request_headers config (JS.get_opt tok "access_token")
             amount phoneNumber externalId externalReference payerMessage
             payeeNote).
Qed.

Lemma X13_witness :
  exists req,
    requests
      (snd (requestPayment
              (always (Resolves (JS.Obj [("token_type", JS.Str "bearer")])))
              config0 1500 "+250788123456" "order-17" "7f0c7e2e" None None
              world0))
    = (requests world0 ++ [token_request config0; req])%list
    /\ method req = POST
    /\ url req = baseUrl config0 ++ "/v1_0/requesttopay"
    /\ body req = requestData config0 1500 "+250788123456" "order-17" None
                    None
    /\ auth req = None
    /\ header "Ocp-Apim-Subscription-Key" (headers req)
       = Some (primaryKey config0)
    /\ header "X-Reference-Id" (headers req) = Some "7f0c7e2e"
    /\ header "Content-Type" (headers req) = Some "application/json"
    /\ header "Authorization" (headers req) = None
    /\ header "X-Target-Environment" (headers req) = None.
Proof.
  apply (X13_payment_request_headers
           (always (Resolves (JS.Obj [("token_type", JS.Str "bearer")])))
           config0 1500 "+250788123456" "order-17" "7f0c7e2e" None None
           world0 (JS.Obj [("token_type", JS.Str "bearer")]));
    reflexivity.
Defined.

(** X14: when the token request is rejected, [generateToken] reports the
    gateway's message (or "Token generation failed"), but [requestPayment]
    and [checkPaymentStatus] drop it: they fail with their own generic
    message, having made no second request, and the failure is logged twice,
    once by [generateToken] and once by the caller. *)
Theorem X14_token_failure_hides_gateway_message :
  forall (network : list request -> request -> axios_outcome)
         (config : MomoConfig) (amount : Z)
         (phoneNumber externalId externalReference referenceId : string)
         (payerMessage payeeNote : option string) (w : world)
         (m : string) (rd : JS.value),
    network (requests w) (token_request config) = Rejects m rd ->
    let token_error :=
      ApiError httpStatus.BAD_REQUEST
        (JS.or_else (JS.get_opt rd "message")
           (JS.Str "Token generation failed")) in
    let token_line :=
      error_line "MOMO token generation failed:" (JS.or_else rd (JS.Str m)) in
    generateToken network config w
    = (JS.Throw token_error, after w [token_request config] [token_line])
    /\ requestPayment network config amount phoneNumber externalId
         externalReference payerMessage payeeNote w
       = (JS.Throw (ApiError httpStatus.BAD_REQUEST
                      (JS.Str "Payment request failed")),
          after w [token_request config]
            [token_line;
             error_line "MOMO payment request failed:"
               (JS.Str (JS.message token_error))])
    /\ checkPaymentStatus network config referenceId w
       = (JS.Throw (ApiError httpStatus.BAD_REQUEST
                      (JS.Str "Payment status check failed")),
          after w [token_request config]
            [token_line;
             error_line "MOMO payment status check failed:"
               (JS.Str (JS.message token_error))]).
Proof.
  intros network config amount phoneNumber externalId externalReference
    referenceId payerMessage payeeNote w m rd Htok token_error token_line.
  subst token_error token_line.
  assert (forall s, JS.or_else JS.Undefined (JS.Str s)
                    = JS.Str s) as Hor by reflexivity.
  repeat split.
  - step. fold (token_request config). rewrite Htok. reflexivity.
  - unfold requestPayment. step. fold (token_request config). rewrite Htok.
    cbn [JS.response_data JS.message ApiError JS.get_opt JS.get].
    cbn [logs requests]. rewrite <- app_assoc. reflexivity.
  - unfold checkPaymentStatus. step. fold (token_request config).
    rewrite Htok.
    cbn [JS.response_data JS.message ApiError JS.get_opt JS.get].
    cbn [logs requests]. rewrite <- app_assoc. reflexivity.
Qed.

Lemma X14_witness :
  checkPaymentStatus (always (Rejects "Request failed with status code 401"
                                JS.Undefined))
    config0 "7f0c7e2e" world0
  = (JS.Throw (ApiError httpStatus.BAD_REQUEST
                 (JS.Str "Payment status check failed")),
     after world0 [token_request config0]
       [error_line "MOMO token generation failed:"
          (JS.Str "Request failed with status code 401");
        error_line "MOMO payment status check failed:"
          (JS.Str "Token generation failed")]).
Proof.
  apply (X14_token_failure_hides_gateway_message
           (always (Rejects "Request failed with status code 401"
                      JS.Undefined))
           config0 0 "" "" "" "7f0c7e2e" None None world0
           "Request failed with status code 401" JS.Undefined).
  reflexivity.
Defined.

(** X15: when the token is issued but the payment request is rejected,
    [requestPayment] fails with an [ApiError] of status 400 after its two
    requests. Its message is the [message] of the response data when that is
    a non-empty string; without a truthy [message] it is "Payment request
    failed", never the message of the axios error. *)
Theorem X15_payment_rejection_message :
  forall (network : list request -> request -> axios_outcome)
         (config : MomoConfig) (amount : Z)
         (phoneNumber externalId externalReference : string)
         (payerMessage payeeNote : option string) (w : world)
         (tok : JS.value) (m : string) (rd : JS.value),
    network (requests w) (token_request config) = Resolves tok ->
    Run.nullish tok = false ->
    network (requests w ++ [token_request config])%list
      (payment_request config (JS.get_opt tok "access_token") amount
         phoneNumber externalId externalReference payerMessage payeeNote)
    = Rejects m rd ->
    exists msg,
      requestPayment network config amount phoneNumber externalId
        externalReference payerMessage payeeNote w
      = (JS.Throw (JS.mk_exn (JS.ApiErrorKind httpStatus.BAD_REQUEST) msg
                     JS.Undefined),
         after w
           [token_request config;
            payment_request config (JS.get_opt tok "access_token") amount
              phoneNumber externalId externalReference payerMessage
              payeeNote]
           [error_line "MOMO payment request failed:"
              (JS.or_else rd (JS.Str m))])
      /\ (forall s, JS.get_opt rd "message" = JS.Str s -> s <> "" -> msg = s)
      /\ (JS.truthy (JS.get_opt rd "message") = false ->
          msg = "Payment request failed").
Proof.
  intros network config amount phoneNumber externalId externalReference
    payerMessage payeeNote w tok m rd Htok Hnn Hpay.
  exists (JS.Error_message
            (JS.or_else (JS.get_opt rd "message")
               (JS.Str "Payment request failed"))).
  split; [|split].
  - unfold requestPayment. step.
    fold (token_request config). rewrite Htok.
    rewrite (get_access_token tok Hnn). step.
    fold (payment_request config (JS.get_opt tok "access_token") amount
            phoneNumber externalId externalReference payerMessage payeeNote).
    cbn [requests]. rewrite Hpay.
    cbn [JS.response_data JS.message logs requests].
    rewrite <- app_assoc. reflexivity.
  - intros s Hs Hne. rewrite Hs. unfold JS.or_else. simpl.
    apply String.eqb_neq in Hne. rewrite Hne. reflexivity.
  - intros Hf. unfold JS.or_else. rewrite Hf. reflexivity.
Qed.

Lemma X15_witness :
  exists msg,
    requestPayment
      (token_then_refuse token_body "Request failed with status code 500"
         JS.Undefined)
      config0 1500 "+250788123456" "order-17" "7f0c7e2e" None None world0
    = (JS.Throw (JS.mk_exn (JS.ApiErrorKind httpStatus.BAD_REQUEST) msg
                   JS.Undefined),
       after world0
         [token_request config0;
          payment_request config0 (JS.get_opt token_body "access_token") 1500
            "+250788123456" "order-17" "7f0c7e2e" None None]
         [error_line "MOMO payment request failed:"
            (JS.or_else JS.Undefined
               (JS.Str "Request failed with status code 500"))])
    /\ (forall s, JS.get_opt JS.Undefined "message" = JS.Str s -> s <> "" ->
                  msg = s)
    /\ (JS.truthy (JS.get_opt JS.Undefined "message") = false ->
        msg = "Payment request failed").
Proof.
  apply (X15_payment_rejection_message
           (token_then_refuse token_body
              "Request failed with status code 500" JS.Undefined)
           config0 1500 "+250788123456" "order-17" "7f0c7e2e" None None
           world0 token_body "Request failed with status code 500"
           JS.Undefined);
    reflexivity.
Defined.

(** X16: [checkPaymentStatus] applies no status check. When the token is
    issued and the status request resolves, the gateway's body is returned as
    it is, a FAILED transaction or a [null] body included; two requests are
    made and nothing is logged. *)
Theorem X16_checkPaymentStatus_returns_body :
  forall (network : list request -> request -> axios_outcome)
         (config : MomoConfig) (referenceId : string) (w : world)
         (tok body : JS.value),
    network (requests w) (token_request config) = Resolves tok ->
    Run.nullish tok = false ->
    network (requests w ++ [token_request config])%list
      (status_request config (JS.get_opt tok "access_token") referenceId)
    = Resolves body ->
    checkPaymentStatus network config referenceId w
    = (JS.Ok body,
       after w
         [token_request config;
          status_request config (JS.get_opt tok "access_token") referenceId]
         []).
Proof.
  intros network config referenceId w tok body Htok Hnn Hst.
  unfold checkPaymentStatus. step.
  fold (token_request config). rewrite Htok.
  rewrite (get_access_token tok Hnn). step.
  fold (status_request config (JS.get_opt tok "access_token") referenceId).
  cbn [requests]. rewrite Hst.
  rewrite <- app_assoc, app_nil_r. reflexivity.
Qed.

Lemma X16_witness :
  checkPaymentStatus
    (fun made _ => match made with
                   | [] => Resolves token_body
                   | _ => Resolves status_failed
                   end)
    config0 "7f0c7e2e" world0
  = (JS.Ok status_failed,
     after world0
       [token_request config0;
        status_request config0 (JS.get_opt token_body "access_token")
          "7f0c7e2e"]
       []).
Proof.
  apply (X16_checkPaymentStatus_returns_body
           (fun made _ => match made with
                          | [] => Resolves token_body
                          | _ => Resolves status_failed
                          end)
           config0 "7f0c7e2e" world0 token_body status_failed);
    reflexivity.
Defined.

(** X17: the payer's number in the payment request is the caller's phone
    number with its first "+" removed and nothing else changed: a number
    without "+" is sent as it is, and any later "+" stays. The currency is
    EUR exactly when the target environment is "sandbox", RWF otherwise. *)
Theorem X17_payer_number_and_currency :
  forall (config : MomoConfig) (amount : Z) (externalId : string)
         (payerMessage payeeNote : option string),
    let partyId phoneNumber :=
      JS.get_opt
        (JS.get_opt
           (requestData config amount phoneNumber externalId payerMessage
              payeeNote) "payer") "partyId" in
    (forall phoneNumber,
        no_plus phoneNumber = true ->
        partyId phoneNumber = JS.Str phoneNumber)
    /\ (forall before rest,
           no_plus before = true ->
           partyId (before ++ String "+" rest) = JS.Str (before ++ rest))
    /\ (forall phoneNumber,
           JS.get_opt
             (requestData config amount phoneNumber externalId payerMessage
                payeeNote) "currency"
           = JS.Str "EUR" <-> env config = "sandbox")
    /\ (forall phoneNumber,
           env config <> "sandbox" ->
           JS.get_opt
             (requestData config amount phoneNumber externalId payerMessage
                payeeNote) "currency"
           = JS.Str "RWF").
Proof.
  intros config amount externalId payerMessage payeeNote partyId.
  subst partyId. cbv beta. split; [|split; [|split]].
  - intros phoneNumber H. cbn. rewrite remove_first_plus_no_plus by exact H.
    reflexivity.
  - intros before rest H. cbn. rewrite remove_first_plus_app by exact H.
    reflexivity.
  - intros phoneNumber. cbn. destruct (env config =? "sandbox") eqn:E.
    + apply String.eqb_eq in E. split; auto.
    + apply String.eqb_neq in E. split; [discriminate | contradiction].
  - intros phoneNumber H. cbn. apply String.eqb_neq in H. rewrite H.
    reflexivity.
Qed.

End MomoProperties.

(** X18: [chargeCard] takes the redirect URL of its payload from the
    environment at the time of the call, not from the configuration the
    constructor stored: with the variable unset at that time the payload has
    no redirect URL. [chargeWithToken] sends the URL the constructor read. *)
Theorem X18_redirect_url_sources :
  forall (network : list request -> request -> axios_outcome)
         (e0 : process_env) (this : t) (data : CardPaymentData)
         (d : TokenizedChargeData.t) (w : world),
    constructor e0 = JS.Ok this ->
    JS.get (cardData (env w) data) "redirect_url"
    = Some (opt_str (FLUTTERWAVE_REDIRECT_URL (env w)))
    /\ (FLUTTERWAVE_REDIRECT_URL (env w) = None ->
        JS.get (cardData (env w) data) "redirect_url" = Some JS.Undefined)
    /\ (exists req,
           requests (snd (chargeWithToken network this d w))
           = (requests w ++ [req])%list
           /\ Some (JS.get_opt (body req) "redirect_url")
              = option_map JS.Str (FLUTTERWAVE_REDIRECT_URL e0)).
Proof.
  intros network e0 this data d w Hc.
  assert (JS.get (cardData (env w) data) "redirect_url"
          = Some (opt_str (FLUTTERWAVE_REDIRECT_URL (env w)))) as Hget.
  { unfold cardData. destruct (authorization data); reflexivity. }
  split; [exact Hget|]. split.
  - intros Hnone. rewrite Hget, Hnone. reflexivity.
  - exists (request_of (des := MaskCipher.cipher) this (env w)
              (ChargeWithToken d)).
    split.
    + exact (invoke_requests (des := MaskCipher.cipher) network this
               (ChargeWithToken d) w I).
    + destruct (constructor_holds_environment e0 this Hc)
        as (_ & _ & _ & Hru & _).
      rewrite Hru. reflexivity.
Qed.

Lemma X18_witness :
  JS.get (cardData (env world0) (charge None None None)) "redirect_url"
  = Some (opt_str (FLUTTERWAVE_REDIRECT_URL (env world0))).
Proof.
  apply (X18_redirect_url_sources (answer body_successful) env0 service0
           (charge None None None)
           {| TokenizedChargeData.token := "flw-t1nf-f9b3bf384cd30d6f";
              TokenizedChargeData.email := "user@example.com";
              TokenizedChargeData.amount := 2500;
              TokenizedChargeData.tx_ref := "MC-tok-19";
              TokenizedChargeData.currency := None;
              TokenizedChargeData.narration := "renewal" |}
           world0).
  reflexivity.
Defined.
